(** * tmuxai: transcript reconstruction and turn orchestration

    A shallow embedding of [internal/process_message.go] (the turn
    orchestrator [ProcessUserMessage], the response interpreter
    [parseAIResponse] and the guideline validator [aiFollowedGuidelines])
    together with the exec-pane operations it calls.

    Go strings are byte sequences; they are embedded as [string], one
    [ascii] per byte.  Integers that only count or index are [nat], exit
    codes are [Z]. *)

From Stdlib Require Import String Ascii List ZArith Lia Bool Arith.
Import ListNotations.
Local Open Scope string_scope.
Local Open Scope list_scope.
Local Open Scope nat_scope.

(** ** Go's [strings] package, on bytes *)

Module GoStrings.

(** [s[n:]] *)
Fixpoint drop (n : nat) (s : string) : string :=
  match n, s with
  | O, _ => s
  | S _, EmptyString => EmptyString
  | S n', String _ s' => drop n' s'
  end.

(** [s[:n]] *)
Fixpoint take (n : nat) (s : string) : string :=
  match n, s with
  | O, _ => EmptyString
  | S _, EmptyString => EmptyString
  | S n', String c s' => String c (take n' s')
  end.

(** [strings.HasPrefix(s, p)] *)
Fixpoint HasPrefix (s p : string) : bool :=
  match p, s with
  | EmptyString, _ => true
  | String _ _, EmptyString => false
  | String a p', String b s' => Ascii.eqb a b && HasPrefix s' p'
  end.

(** [strings.Index(s, sub)], with [None] for Go's [-1]. *)
Fixpoint Index (s sub : string) : option nat :=
  if HasPrefix s sub then Some 0
  else match s with
       | EmptyString => None
       | String _ s' => option_map S (Index s' sub)
       end.

(** [strings.Contains(s, sub)] *)
Definition Contains (s sub : string) : bool :=
  match Index s sub with Some _ => true | None => false end.

Fixpoint rev (s : string) : string :=
  match s with
  | EmptyString => EmptyString
  | String c s' => rev s' ++ String c EmptyString
  end.

(** [strings.HasSuffix(s, p)] *)
Definition HasSuffix (s p : string) : bool := HasPrefix (rev s) (rev p).

Definition byte_is (n : nat) (c : ascii) : bool := Nat.eqb (nat_of_ascii c) n.

(** The ASCII part of [unicode.IsSpace]: tab, line feed, vertical tab, form
    feed, carriage return and space. *)
Definition asciiSpace (c : ascii) : bool :=
  let n := nat_of_ascii c in
  ((9 <=? n) && (n <=? 13)) || (n =? 32).

(** The continuation bytes that, after the lead bytes [E2 80], encode a
    white-space rune: U+2000..U+200A, U+2028, U+2029 and U+202F. *)
Definition e280Space (c : ascii) : bool :=
  let n := nat_of_ascii c in
  ((128 <=? n) && (n <=? 138)) || (n =? 168) || (n =? 169) || (n =? 175).

(** Number of bytes of the UTF-8 encoding of a white-space rune
    ([unicode.IsSpace]) at the head of [s], [0] when [s] does not start
    with one.  Beyond ASCII the white-space runes are U+0085, U+00A0,
    U+1680, U+2000..U+200A, U+2028, U+2029, U+202F, U+205F and U+3000. *)
Definition spaceWidth (s : string) : nat :=
  match s with
  | EmptyString => 0
  | String c s1 =>
      if asciiSpace c then 1
      else match s1 with
           | EmptyString => 0
           | String d s2 =>
               if byte_is 194 c then
                 if byte_is 133 d || byte_is 160 d then 2 else 0
               else match s2 with
                    | EmptyString => 0
                    | String e _ =>
                        if byte_is 225 c && byte_is 154 d && byte_is 128 e then 3
                        else if byte_is 226 c && byte_is 128 d && e280Space e then 3
                        else if byte_is 226 c && byte_is 129 d && byte_is 159 e then 3
                        else if byte_is 227 c && byte_is 128 d && byte_is 128 e then 3
                        else 0
                    end
           end
  end.

(** The same, read from the end: [r] is the reversed string. *)
Definition spaceWidthRev (r : string) : nat :=
  match r with
  | EmptyString => 0
  | String c r1 =>
      if asciiSpace c then 1
      else match r1 with
           | EmptyString => 0
           | String d r2 =>
               if byte_is 194 d then
                 if byte_is 133 c || byte_is 160 c then 2 else 0
               else match r2 with
                    | EmptyString => 0
                    | String e _ =>
                        if byte_is 225 e && byte_is 154 d && byte_is 128 c then 3
                        else if byte_is 226 e && byte_is 128 d && e280Space c then 3
                        else if byte_is 226 e && byte_is 129 d && byte_is 159 c then 3
                        else if byte_is 227 e && byte_is 128 d && byte_is 128 c then 3
                        else 0
                    end
           end
  end.

(** Strip white-space runes from the head, at most [fuel] of them. *)
Fixpoint trimWith (width : string -> nat) (fuel : nat) (s : string) : string :=
  match fuel with
  | O => s
  | S fuel' =>
      match width s with
      | O => s
      | S k => trimWith width fuel' (drop (S k) s)
      end
  end.

Definition TrimLeftSpace (s : string) : string :=
  trimWith spaceWidth (String.length s) s.

Definition TrimRightSpace (s : string) : string :=
  rev (trimWith spaceWidthRev (String.length s) (rev s)).

(** [strings.TrimSpace(s)] *)
Definition TrimSpace (s : string) : string := TrimRightSpace (TrimLeftSpace s).

(** A string made of white-space runes only. *)
Inductive AllSpace : string -> Prop :=
| AllSpace_nil : AllSpace EmptyString
| AllSpace_rune : forall s k,
    spaceWidth s = S k -> AllSpace (drop (S k) s) -> AllSpace s.

End GoStrings.

Import GoStrings.

(** ** The tag patterns of the response interpreter

    Every pattern the interpreter compiles has the shape
    [(?s)<Name>(.*?)</Name>]: a literal opening tag, a lazy group that also
    crosses line ends, a literal closing tag.  The leftmost match of such a
    pattern starts at the first opening tag and its group ends at the first
    closing tag after it; when no closing tag follows the first opening tag,
    none follows a later one either. *)

Module Regexp.

Record TagPattern := mkTagPattern { openTag : string; closeTag : string }.

(** [regexp.MustCompile(`(?s)<name>(.*?)</name>`)] *)
Definition MustCompileTag (name : string) : TagPattern :=
  {| openTag := "<" ++ name ++ ">"; closeTag := "</" ++ name ++ ">" |}.

(** The leftmost match in [s]: its group 1 and the text after the match. *)
Definition findTag (re : TagPattern) (s : string) : option (string * string) :=
  match Index s (openTag re) with
  | None => None
  | Some i =>
      let body := drop (i + String.length (openTag re)) s in
      match Index body (closeTag re) with
      | None => None
      | Some j => Some (take j body, drop (j + String.length (closeTag re)) body)
      end
  end.

(** [re.FindStringSubmatch(s)], reduced to group 1 ([matches[1]]); [None]
    stands for the nil slice of a failed match. *)
Definition FindStringSubmatch (re : TagPattern) (s : string) : option string :=
  option_map fst (findTag re s).

Fixpoint findAllTags (re : TagPattern) (fuel : nat) (s : string) : list string :=
  match fuel with
  | O => []
  | S fuel' =>
      match findTag re s with
      | None => []
      | Some (group, rest) => group :: findAllTags re fuel' rest
      end
  end.

(** [re.FindAllStringSubmatch(s, -1)], each match reduced to group 1.  A
    match is never empty, so the length of [s] bounds their number. *)
Definition FindAllStringSubmatch (re : TagPattern) (s : string) : list string :=
  findAllTags re (S (String.length s)) s.

End Regexp.

Import Regexp.

(** ** The typed reply of the model *)

Record AIResponse := mkAIResponse {
  Message : string;
  SendKeys : list string;
  ExecCommand : list string;
  PasteMultilineContent : string;
  BrowserAction : string;
  RequestAccomplished : bool;
  ExecPaneSeemsBusy : bool;
  WaitingForUserResponse : bool;
  NoComment : bool
}.

(** Go's [error], by its text; [None] is [nil]. *)
Definition error := option string.

Section ResponseInterpreter.

(** [json.Unmarshal([]byte(content), &testMap) == nil] for a
    [map[string]interface{}] target: the decoder of the Go library, taken as
    it is. *)
Variable jsonUnmarshalMap : string -> bool.

Definition browserActionRegex := MustCompileTag "BrowserAction".
Definition sendKeysRegex := MustCompileTag "TmuxSendKeys".
Definition execCommandRegex := MustCompileTag "ExecCommand".
Definition pasteRegex := MustCompileTag "PasteMultilineContent".

Definition parseAIResponse (response : string) : AIResponse * error :=
  (* Extract BrowserAction *)
  let browserAction :=
    match FindStringSubmatch browserActionRegex response with
    | Some group =>
        let browserActionContent := TrimSpace group in
        if jsonUnmarshalMap browserActionContent then browserActionContent
        else ""
    | None => ""
    end in
  (* Extract TmuxSendKeys *)
  let sendKeys := map TrimSpace (FindAllStringSubmatch sendKeysRegex response) in
  (* Extract ExecCommand *)
  let execCommand := map TrimSpace (FindAllStringSubmatch execCommandRegex response) in
  (* Extract PasteMultilineContent *)
  let paste :=
    match FindStringSubmatch pasteRegex response with
    | Some group => TrimSpace group
    | None => ""
    end in
  ({| Message := response;
      SendKeys := sendKeys;
      ExecCommand := execCommand;
      PasteMultilineContent := paste;
      BrowserAction := browserAction;
      (* Extract boolean flags *)
      RequestAccomplished :=
        Contains response "<RequestAccomplished>1</RequestAccomplished>";
      ExecPaneSeemsBusy :=
        Contains response "<ExecPaneSeemsBusy>1</ExecPaneSeemsBusy>";
      WaitingForUserResponse :=
        Contains response "<WaitingForUserResponse>1</WaitingForUserResponse>";
      NoComment := Contains response "<NoComment>1</NoComment>" |},
   None).

End ResponseInterpreter.

(** ** The guideline validator *)

Definition onlyOneFlag : string :=
  "You didn't follow the guidelines. Only one boolean flag should be set to true in your response. Pay attention!".
Definition onlyOneTag : string :=
  "You didn't follow the guidelines. You can only use one type of XML tag in your response. Pay attention!".
Definition atLeastOneTag : string :=
  "You didn't follow the guidelines. You must use at least one XML tag in your response. Pay attention!".

(** [if b { n++ }] *)
Definition incrIf (b : bool) (n : nat) : nat := if b then S n else n.

(** The receiver contributes [m.WatchMode] only. *)
Definition aiFollowedGuidelines (watchMode : bool) (r : AIResponse) : string * bool :=
  (* Check if only one boolean is true in AI response *)
  let boolCount := 0 in
  let boolCount := incrIf (RequestAccomplished r) boolCount in
  let boolCount := incrIf (ExecPaneSeemsBusy r) boolCount in
  let boolCount := incrIf (WaitingForUserResponse r) boolCount in
  let boolCount := incrIf (NoComment r) boolCount in
  if 1 <? boolCount then (onlyOneFlag, false)
  else
    (* Check if only one tag is used *)
    let tags := [ List.length (ExecCommand r);
                  List.length (SendKeys r);
                  String.length (PasteMultilineContent r);
                  String.length (BrowserAction r) ] in
    let count := fold_left (fun count len => incrIf (0 <? len) count) tags 0 in
    if 1 <? count then (onlyOneTag, false)
    else
      (* watch mode has no xml tags, otherwise should be at least 1 xml tag *)
      if negb watchMode && (count + boolCount =? 0) then (atLeastOneTag, false)
      else ("", true).

(** ** Session state *)

Record ChatMessage := mkChatMessage {
  Content : string;
  FromUser : bool;
  Timestamp : nat
}.

Record CommandExecHistory := mkCommandExecHistory {
  Command : string;
  Output : string;
  Code : Z
}.

(** The zero value [CommandExecHistory{}]. *)
Definition zeroCommandExecHistory : CommandExecHistory :=
  {| Command := ""; Output := ""; Code := 0%Z |}.

(** [system.TmuxPaneDetails], the fields the orchestrator and the exec-pane
    operations read or write. *)
Record TmuxPaneDetails := mkTmuxPaneDetails {
  Id : string;
  CurrentCommand : string;
  LastLine : string;
  IsPrepared : bool;
  IsSubShell : bool;
  Shell : string;
  OS : string
}.

Record Config := mkConfig {
  Debug : bool;
  MaxCaptureLines : nat
}.

(** [Manager].  [Status] is the shared session status: [""] idle or
    cancelled, ["running"], ["waiting"]. *)
Record Manager := mkManager {
  Status : string;
  WatchMode : bool;
  Messages : list ChatMessage;
  ExecPane : TmuxPaneDetails;
  ExecHistory : list CommandExecHistory;
  Cfg : Config
}.

Definition setStatus (v : string) (m : Manager) : Manager :=
  {| Status := v; WatchMode := WatchMode m; Messages := Messages m;
     ExecPane := ExecPane m; ExecHistory := ExecHistory m; Cfg := Cfg m |}.

Definition setWatchMode (v : bool) (m : Manager) : Manager :=
  {| Status := Status m; WatchMode := v; Messages := Messages m;
     ExecPane := ExecPane m; ExecHistory := ExecHistory m; Cfg := Cfg m |}.

Definition setMessages (v : list ChatMessage) (m : Manager) : Manager :=
  {| Status := Status m; WatchMode := WatchMode m; Messages := v;
     ExecPane := ExecPane m; ExecHistory := ExecHistory m; Cfg := Cfg m |}.

Definition setExecHistory (v : list CommandExecHistory) (m : Manager) : Manager :=
  {| Status := Status m; WatchMode := WatchMode m; Messages := Messages m;
     ExecPane := ExecPane m; ExecHistory := v; Cfg := Cfg m |}.

Definition setLastLine (v : string) (m : Manager) : Manager :=
  {| Status := Status m; WatchMode := WatchMode m; Messages := Messages m;
     ExecPane :=
       {| Id := Id (ExecPane m); CurrentCommand := CurrentCommand (ExecPane m);
          LastLine := v; IsPrepared := IsPrepared (ExecPane m);
          IsSubShell := IsSubShell (ExecPane m); Shell := Shell (ExecPane m);
          OS := OS (ExecPane m) |};
     ExecHistory := ExecHistory m; Cfg := Cfg m |}.

(** [m.Status == ""] *)
Definition idle (m : Manager) : bool := String.eqb (Status m) "".

(** ** The world outside the session

    The pane, the chat service, the user at the keyboard and the browser
    are reached through injectable functions.  Their answers are scripted
    by the tick at which the call is made, and what the session sends out
    is logged.  The interrupt handler of [processInput] runs beside the
    turn; it is delivered at the blocking calls, where it clears [Status]
    and [WatchMode]. *)

(** One [system.TmuxSendCommandToPane(paneId, command, enter)]. *)
Record PaneDirective := mkPaneDirective {
  toPane : string;
  directive : string;
  enter : bool
}.

Inductive ChatOutcome :=
| ChatReply (response : string)
| ChatFailed (err : string)          (* err != nil, ctx.Err() != context.Canceled *)
| ChatCanceled (err : string).       (* err != nil, ctx.Err() == context.Canceled *)

Inductive CaptureOutcome :=
| Captured (content : string)
| CaptureFailed (err : string).

Record World := mkWorld {
  clock : nat;
  interruptAt : nat -> bool;
  chatAt : nat -> ChatOutcome;
  confirmAt : nat -> bool * string;
  captureAt : nat -> CaptureOutcome;
  panesXmlAt : nat -> string;
  browserAt : nat -> string + string;     (* result, or the error's text *)
  paneLog : list PaneDirective;
  chatLog : list (list ChatMessage * string);
  console : list string;
  debugLog : list (list ChatMessage * string)
}.

Definition setClock (v : nat) (w : World) : World :=
  {| clock := v; interruptAt := interruptAt w; chatAt := chatAt w;
     confirmAt := confirmAt w; captureAt := captureAt w;
     panesXmlAt := panesXmlAt w; browserAt := browserAt w;
     paneLog := paneLog w; chatLog := chatLog w; console := console w;
     debugLog := debugLog w |}.

Definition setPaneLog (v : list PaneDirective) (w : World) : World :=
  {| clock := clock w; interruptAt := interruptAt w; chatAt := chatAt w;
     confirmAt := confirmAt w; captureAt := captureAt w;
     panesXmlAt := panesXmlAt w; browserAt := browserAt w;
     paneLog := v; chatLog := chatLog w; console := console w;
     debugLog := debugLog w |}.

Definition setChatLog (v : list (list ChatMessage * string)) (w : World) : World :=
  {| clock := clock w; interruptAt := interruptAt w; chatAt := chatAt w;
     confirmAt := confirmAt w; captureAt := captureAt w;
     panesXmlAt := panesXmlAt w; browserAt := browserAt w;
     paneLog := paneLog w; chatLog := v; console := console w;
     debugLog := debugLog w |}.

Definition setConsole (v : list string) (w : World) : World :=
  {| clock := clock w; interruptAt := interruptAt w; chatAt := chatAt w;
     confirmAt := confirmAt w; captureAt := captureAt w;
     panesXmlAt := panesXmlAt w; browserAt := browserAt w;
     paneLog := paneLog w; chatLog := chatLog w; console := v;
     debugLog := debugLog w |}.

Definition setDebugLog (v : list (list ChatMessage * string)) (w : World) : World :=
  {| clock := clock w; interruptAt := interruptAt w; chatAt := chatAt w;
     confirmAt := confirmAt w; captureAt := captureAt w;
     panesXmlAt := panesXmlAt w; browserAt := browserAt w;
     paneLog := paneLog w; chatLog := chatLog w; console := console w;
     debugLog := v |}.

(** The session and the world it runs in. *)
Definition St : Type := Manager * World.

(** A blocking call returns: an interrupt that landed meanwhile has run its
    handler ([Status = ""], [WatchMode = false]), and time has passed. *)
Definition blocked (s : St) : St :=
  let (m, w) := s in
  ((if interruptAt w (clock w) then setWatchMode false (setStatus "" m) else m),
   setClock (S (clock w)) w).

(** [m.Println(text)] and [fmt.Println(text)] *)
Definition Println (text : string) (s : St) : St :=
  let (m, w) := s in (m, setConsole (console w ++ [text]) w).

(** [system.TmuxSendCommandToPane(paneId, command, enter)]; the error it
    returns is dropped at every call site. *)
Definition TmuxSendCommandToPane (paneId command : string) (enter : bool) (s : St) : St :=
  let (m, w) := s in
  (m, setPaneLog (paneLog w ++ [mkPaneDirective paneId command enter]) w).

(** [time.Sleep] *)
Definition Sleep (s : St) : St := blocked s.

(** [system.TmuxCapturePane(paneId, maxLines)] *)
Definition TmuxCapturePane (s : St) : CaptureOutcome * St :=
  (captureAt (snd s) (clock (snd s)), blocked s).

(** [m.confirmedToExec(command, prompt, edit)]: whether the user agrees and
    the command as the user left it. *)
Definition confirmedToExec (command prompt : string) (edit : bool) (s : St)
  : (bool * string) * St :=
  (confirmAt (snd s) (clock (snd s)), blocked s).

(** [m.executeBrowserAction(json)] *)
Definition executeBrowserAction (json : string) (s : St) : (string + string) * St :=
  (browserAt (snd s) (clock (snd s)), blocked s).

(** [m.AiClient.GetResponseFromChatMessages(ctx, sending, model)] *)
Definition GetResponseFromChatMessages (sending : list ChatMessage) (model : string)
  (s : St) : ChatOutcome * St :=
  let (m, w) := s in
  (chatAt w (clock w), blocked (m, setChatLog (chatLog w ++ [(sending, model)]) w)).

(** [debugChatMessages(messages, response)] *)
Definition debugChatMessages (messages : list ChatMessage) (response : string)
  (s : St) : St :=
  let (m, w) := s in (m, setDebugLog (debugLog w ++ [(messages, response)]) w).

(** ** The exec pane: prompt grammar, transcript parser, preparation, poller *)

Definition LF : ascii := ascii_of_nat 10.

(** [strings.Split(s, "\n")] *)
Fixpoint splitLines (s : string) : list string :=
  match s with
  | EmptyString => [EmptyString]
  | String c s' =>
      if Ascii.eqb c LF then EmptyString :: splitLines s'
      else match splitLines s' with
           | l :: ls => String c l :: ls
           | [] => [String c EmptyString]
           end
  end.

(** [strings.Join(lines, "\n")] *)
Definition joinLines (lines : list string) : string :=
  String.concat (String LF EmptyString) lines.

Definition blank (line : string) : bool := String.eqb (TrimSpace line) "".

Fixpoint dropWhile {A} (p : A -> bool) (l : list A) : list A :=
  match l with
  | [] => []
  | x :: l' => if p x then dropWhile p l' else l
  end.

(** One occurrence of the prompt pattern: where it starts, where it ends
    (just after the delimiter and its space) and the status it embeds. *)
Record PromptMatch := mkPromptMatch {
  matchStart : nat;
  matchEnd : nat;
  matchStatus : Z
}.

(** The per-shell texts of the prompt template. *)
Record PromptTemplate := mkPromptTemplate {
  bashPrompt : string;
  zshPrompt : string;
  fishPrompt : string
}.

Module ExecPaneOps.
Section Grammar.

(** Modelled from the spec: the extraction pattern of the prompt grammar is
    declared in [internal/exec_pane.go], outside this development.  It is taken
    as the function that finds the leftmost occurrence of the prompt shape
    [<user>@<host>:<path>[<HH:MM>][<status>]<delimiter> ] in a text; a match
    holds the delimiter, so it is never empty. *)
Variable promptRegex : string -> option PromptMatch.

(** Modelled from the spec: the bound of the poller, "a fixed maximum number
    of capture attempts", counted after the first capture. *)
Variable maxPollAttempts : nat.

(** Modelled from the spec: the set-prompt command of each shell family. *)
Variable template : PromptTemplate.

(** Modelled from the spec: the texts of the two user-visible warnings of
    the preparation, for a shell outside the three families and for a
    sub-shell pane prepared without naming a shell. *)
Variable unsupportedShell : string -> string.
Variable shellRequired : string.

(** Modelled from the spec: the scan for the matches, one after the end of
    the other; [base] is the offset of [s] in the capture. *)
Fixpoint findAllPromptsFrom (fuel base : nat) (s : string) : list PromptMatch :=
  match fuel with
  | O => []
  | S fuel' =>
      match promptRegex s with
      | None => []
      | Some pm =>
          mkPromptMatch (base + matchStart pm) (base + matchEnd pm) (matchStatus pm)
          :: findAllPromptsFrom fuel' (base + matchEnd pm) (drop (matchEnd pm) s)
      end
  end.

(** Modelled from the spec: "scan the text for all non-overlapping
    prompt-pattern matches, recording each match's position, extracted
    status field, and its textual offset". *)
Definition findAllPrompts (content : string) : list PromptMatch :=
  findAllPromptsFrom (S (String.length content)) 0 content.

(** Modelled from the spec: the text "between the end of prompt match i and
    the start of prompt match i+1", or up to the end of the capture. *)
Definition gapAfter (content : string) (pm : PromptMatch) (next : option PromptMatch)
  : string :=
  let stop := match next with
              | Some nx => matchStart nx
              | None => String.length content
              end in
  take (stop - matchEnd pm) (drop (matchEnd pm) content).

(** Modelled from the spec: the command, "the first line" of a gap, verbatim. *)
Definition commandOf (gap : string) : string :=
  match Index gap (String LF EmptyString) with
  | Some i => take i gap
  | None => gap
  end.

(** Modelled from the spec: the output, "all subsequent lines up to the next
    prompt ... with leading/trailing blank lines trimmed". *)
Definition outputOf (gap : string) : string :=
  match Index gap (String LF EmptyString) with
  | Some i =>
      let lines := splitLines (drop (S i) gap) in
      joinLines (List.rev (dropWhile blank (List.rev (dropWhile blank lines))))
  | None => ""
  end.

(** Modelled from the spec: the loop over the matches, entry [i] taking its
    status from match [i+1]; [todo] counts the iterations left.  A gap whose
    command is blank gives no entry. *)
Fixpoint historyLoop (content : string) (matches : list PromptMatch) (i todo : nat)
  : list CommandExecHistory :=
  match todo with
  | O => []
  | S todo' =>
      match nth_error matches i with
      | None => []
      | Some pm =>
          let next := nth_error matches (S i) in
          let gap := gapAfter content pm next in
          let command := commandOf gap in
          let code := match next with
                      | Some nx => matchStatus nx
                      | None => (-1)%Z
                      end in
          if blank command then historyLoop content matches (S i) todo'
          else mkCommandExecHistory command (outputOf gap) code
               :: historyLoop content matches (S i) todo'
      end
  end.

(** Modelled from the spec: the transcript parser of
    [internal/exec_pane.go] (section 4.1).  The history it builds replaces
    [m.ExecHistory]. *)
Definition parseHistory (content : string) : list CommandExecHistory :=
  let matches := findAllPrompts content in
  historyLoop content matches 0 (List.length matches).

Definition parseExecPaneCommandHistoryWithContent (content : string) (s : St) : St :=
  (setExecHistory (parseHistory content) (fst s), snd s).

(** ** Preparation *)

Definition clearScreen : string := "C-l".

(** Modelled from the spec: [PrepareExecPaneWithShell] of
    [internal/exec_pane.go] (section 4.2): the set-prompt command of the
    shell family, then the clear-screen directive; a warning and no
    directive for any other shell. *)
Definition PrepareExecPaneWithShell (shell : string) (s : St) : St :=
  let pane := Id (ExecPane (fst s)) in
  let install (command : string) :=
    TmuxSendCommandToPane pane clearScreen false
      (TmuxSendCommandToPane pane command true s) in
  if String.eqb shell "bash" then install (bashPrompt template)
  else if String.eqb shell "zsh" then install (zshPrompt template)
  else if String.eqb shell "fish" then install (fishPrompt template)
  else Println (unsupportedShell shell) s.

(** Modelled from the spec: the [/prepare] operation with its optional
    shell argument.  Without one the detected current program of the pane
    stands for the shell, except on a sub-shell pane, which needs the
    argument. *)
Definition Prepare (shell : option string) (s : St) : St :=
  match shell with
  | Some sh => PrepareExecPaneWithShell sh s
  | None =>
      if IsSubShell (ExecPane (fst s)) then Println shellRequired s
      else PrepareExecPaneWithShell (CurrentCommand (ExecPane (fst s))) s
  end.

(** ** The poller *)

(** Modelled from the spec: the trailing line of a capture. *)
Definition lastLine (content : string) : string :=
  List.last (splitLines content) "".

(** Modelled from the spec: completion, the trailing line is a prompt with
    nothing typed after it. *)
Definition promptReady (line : string) : bool :=
  match promptRegex line with
  | Some pm => blank (drop (matchEnd pm) line)
  | None => false
  end.

Definition parseFailure : string := "failed to parse command history".

(** Modelled from the spec: the polling loop.  Capture, look at the trailing
    line, and go on while the pane is busy, the session is running and
    attempts remain.  Left: the final capture.
    Right: the error of a capture, which is not retried. *)
Fixpoint pollPane (attempts : nat) (s : St) : (string + string) * St :=
  match TmuxCapturePane s with
  | (CaptureFailed err, s1) => (inr err, s1)
  | (Captured content, s1) =>
      let s2 := (setLastLine (lastLine content) (fst s1), snd s1) in
      if promptReady (lastLine content) || idle (fst s2) then (inl content, s2)
      else match attempts with
           | O => (inl content, s2)
           | S attempts' => pollPane attempts' (Sleep s2)
           end
  end.

(** Modelled from the spec: [ExecWaitCapture] of [internal/exec_pane.go]
    (section 4.3). *)
Definition ExecWaitCapture (command : string) (s : St)
  : (CommandExecHistory * error) * St :=
  let s := TmuxSendCommandToPane (Id (ExecPane (fst s))) command true s in
  match pollPane maxPollAttempts s with
  | (inr err, s1) => ((zeroCommandExecHistory, Some err), s1)
  | (inl content, s1) =>
      let s2 := parseExecPaneCommandHistoryWithContent content s1 in
      match List.rev (ExecHistory (fst s2)) with
      | [] => ((zeroCommandExecHistory, Some parseFailure), s2)
      | cmd :: _ =>
          if String.eqb (Command cmd) command then ((cmd, None), s2)
          else ((zeroCommandExecHistory, Some parseFailure), s2)
      end
  end.

End Grammar.
End ExecPaneOps.

(** ** The canonical prompt

    [user@host:path[HH:MM][status]» ], the shape the three set-prompt
    commands install.  The recognizer below reads one line: everything up
    to the first delimiter must end in the time and status brackets and
    start with [user@host:]. *)

Module CanonicalPrompt.

(** The delimiter glyph U+00BB in UTF-8, and the space after it. *)
Definition delimiter : string := "» ".

Definition isDigit (c : ascii) : bool :=
  let n := nat_of_ascii c in (48 <=? n) && (n <=? 57).

(** The leading digits of [r] and what follows them. *)
Fixpoint spanDigits (r : string) : string * string :=
  match r with
  | EmptyString => (EmptyString, EmptyString)
  | String c r' =>
      if isDigit c then let (ds, rest) := spanDigits r' in (String c ds, rest)
      else (EmptyString, r)
  end.

(** [strconv.Atoi] on a run of digits. *)
Definition atoi (digits : string) : Z :=
  fold_left (fun acc c => (10 * acc + Z.of_nat (nat_of_ascii c - 48))%Z)
            (list_ascii_of_string digits) 0%Z.

(** [user@host:path] with a user and a host. *)
Definition userHostPath (who : string) : bool :=
  match Index who "@" with
  | Some (S i) =>
      match Index (drop (S (S i)) who) ":" with
      | Some (S _) => true
      | _ => false
      end
  | _ => false
  end.

(** Modelled from the spec: the canonical prompt shape on one line; the
    offset just after the delimiter and the status. *)
Definition matchLine (line : string) : option (nat * Z) :=
  match Index line delimiter with
  | None => None
  | Some k =>
      match rev (take k line) with
      | String "]" r1 =>
          match spanDigits r1 with
          | (String d ds, String "[" (String "]" (String m2 (String m1
               (String ":" (String h2 (String h1 (String "[" who)))))))) =>
              if isDigit m2 && isDigit m1 && isDigit h2 && isDigit h1
                 && userHostPath (rev who)
              then Some (k + String.length delimiter, atoi (rev (String d ds)))
              else None
          | _ => None
          end
      | _ => None
      end
  end.

(** Modelled from the spec: the first line of [lines] that holds a prompt;
    [offset] is where the first line starts in the text. *)
Fixpoint firstPrompt (offset : nat) (lines : list string) : option PromptMatch :=
  match lines with
  | [] => None
  | line :: rest =>
      match matchLine line with
      | Some (stop, status) => Some (mkPromptMatch offset (offset + stop) status)
      | None => firstPrompt (offset + S (String.length line)) rest
      end
  end.

(** Modelled from the spec: the leftmost canonical prompt of a text. *)
Definition promptRegex (text : string) : option PromptMatch :=
  firstPrompt 0 (splitLines text).

End CanonicalPrompt.

(** ** The turn orchestrator *)

(** What [ProcessUserMessage] calls and this file does not hold: methods of
    [Manager] declared in other files of the package, the [system] package,
    and the decoder of the Go library. *)
Record Deps := mkDeps {
  jsonUnmarshalMap : string -> bool;
  needSquash : Manager -> bool;
  (** the message log after [m.squashHistory()], which may depend on when it
      runs *)
  squashHistory : list ChatMessage -> nat -> list ChatMessage;
  watchPrompt : Manager -> ChatMessage;
  chatAssistantPrompt : Manager -> bool -> ChatMessage;
  GetOpenRouterModel : Manager -> string;
  GetExecConfirm : Manager -> bool;
  GetSendKeysConfirm : Manager -> bool;
  GetPasteMultilineConfirm : Manager -> bool;
  GetWaitInterval : Manager -> nat;
  HighlightCode : string -> string -> string;
  Cosmetics : string -> string;
  promptRegex : string -> option PromptMatch;
  maxPollAttempts : nat
}.

Section Orchestrator.

Variable D : Deps.

Definition ExecWaitCapture : string -> St -> (CommandExecHistory * error) * St :=
  ExecPaneOps.ExecWaitCapture (promptRegex D) (maxPollAttempts D).

(** [m.getTmuxPanesInXml(m.Config)] *)
Definition getTmuxPanesInXml (s : St) : string * St :=
  (panesXmlAt (snd s) (clock (snd s)), blocked s).

(** [m.Countdown(seconds)] *)
Definition Countdown (seconds : nat) (s : St) : St := Nat.iter seconds Sleep s.

(** [m.Status = ""] *)
Definition clearStatus (s : St) : St := (setStatus "" (fst s), snd s).

(** [m.Messages = append(m.Messages, currentMessage, responseMsg)] *)
Definition appendMessages (currentMessage responseMsg : ChatMessage) (s : St) : St :=
  (setMessages (Messages (fst s) ++ [currentMessage; responseMsg]) (fst s), snd s).

Definition nlnl : string := String LF (String LF EmptyString).

(** The loop over [r.ExecCommand].  [false]: the user declined and the turn
    returns [false]. *)
Fixpoint execCommands (commands : list string) (s : St) : bool * St :=
  match commands with
  | [] => (true, s)
  | execCommand :: commands' =>
      let s := Println (HighlightCode D "sh" execCommand) s in
      let '(isSafe, command, s) :=
        if GetExecConfirm D (fst s) then
          let '(answer, s) := confirmedToExec execCommand "Execute this command?" true s in
          (fst answer, snd answer, s)
        else (true, execCommand, s) in
      if isSafe then
        let s := Println ("Executing command: " ++ command) s in
        let s :=
          if IsPrepared (ExecPane (fst s)) then snd (ExecWaitCapture command s)
          else Sleep (TmuxSendCommandToPane (Id (ExecPane (fst s))) command true s) in
        execCommands commands' s
      else (false, clearStatus s)
  end.

(** The preview of the keys, one highlighted key per line. *)
Definition keysPreview (keys : list string) : string :=
  "Keys to send:" ++ String LF EmptyString
  ++ joinLines (map (HighlightCode D "txt") keys).

Fixpoint sendEachKey (keys : list string) (s : St) : St :=
  match keys with
  | [] => s
  | sendKey :: keys' =>
      let s := Println ("Sending keys: " ++ sendKey) s in
      let s := TmuxSendCommandToPane (Id (ExecPane (fst s))) sendKey false s in
      sendEachKey keys' (Sleep s)
  end.

(** The [SendKeys] block.  [false]: the turn returns [false]. *)
Definition processSendKeys (r : AIResponse) (s : St) : bool * St :=
  if 0 <? List.length (SendKeys r) then
    (* the preview loop leaves as soon as it sees the status cleared *)
    if idle (fst s) then (false, s)
    else
      let s := Println (keysPreview (SendKeys r)) s in
      let confirmMessage :=
        if 1 <? List.length (SendKeys r) then "Send all these keys?"
        else "Send this key?" in
      if GetSendKeysConfirm D (fst s) then
        let '(answer, s) := confirmedToExec "keys shown above" confirmMessage true s in
        if fst answer then (true, sendEachKey (SendKeys r) s)
        else (false, clearStatus s)
      else (true, sendEachKey (SendKeys r) s)
  else (true, s).

(** The [BrowserAction] block.  [false]: the turn returns [false]. *)
Definition processBrowserAction (r : AIResponse) (s : St) : bool * St :=
  if negb (String.eqb (BrowserAction r) "") then
    let s := Println ("Browser action: " ++ HighlightCode D "json" (BrowserAction r)) s in
    let '(isSafe, s) :=
      if GetExecConfirm D (fst s) then
        let '(answer, s) :=
          confirmedToExec (BrowserAction r) "Perform this browser action?" false s in
        (fst answer, s)
      else (true, s) in
    if isSafe then
      let s := Println "Performing browser action..." s in
      match executeBrowserAction (BrowserAction r) s with
      | (inr err, s) =>
          (false, clearStatus (Println ("Browser action failed: " ++ err) s))
      | (inl result, s) => (true, Println ("Browser action result: " ++ result) s)
      end
    else (false, clearStatus s)
  else (true, s).

(** The [PasteMultilineContent] block.  [false]: the turn returns [false]. *)
Definition processPaste (r : AIResponse) (s : St) : bool * St :=
  if negb (String.eqb (PasteMultilineContent r) "") then
    let s := Println (HighlightCode D "txt" (PasteMultilineContent r)) s in
    let '(isSafe, s) :=
      if GetPasteMultilineConfirm D (fst s) then
        let '(answer, s) :=
          confirmedToExec (PasteMultilineContent r) "Paste multiline content?" false s in
        (fst answer, s)
      else (true, s) in
    if isSafe then
      let s := Println "Pasting..." s in
      (true,
       Sleep (TmuxSendCommandToPane (Id (ExecPane (fst s)))
                                    (PasteMultilineContent r) true s))
    else (false, clearStatus s)
  else (true, s).

Definition busyProbe : string :=
  "waited for 5 more seconds, here is the current pane(s) content".
Definition updateProbe : string := "sending updated pane(s) content".

(** The result of a turn: [None] when the recursion was cut by the fuel. *)
Definition Outcome : Type := option (bool * St).

(** From the paste block to the end of the function. *)
Definition finishTurn (self : string -> St -> Outcome) (r : AIResponse) (s : St)
  : Outcome :=
  match processPaste r s with
  | (false, s) => Some (false, s)
  | (true, s) =>
      if RequestAccomplished r then Some (true, clearStatus s)
      else if WaitingForUserResponse r then
        Some (false, (setStatus "waiting" (fst s), snd s))
      else if NoComment r then Some (false, s)      (* watch mode only *)
      else if negb (WatchMode (fst s)) then
        match self updateProbe s with
        | None => None
        | Some (true, s) => Some (true, s)
        | Some (false, s) => Some (false, s)
        end
      else Some (false, s)
  end.

(** The actions of a reply that passed the validator. *)
Definition actOn (self : string -> St -> Outcome) (r : AIResponse) (s : St)
  : Outcome :=
  match execCommands (ExecCommand r) s with
  | (false, s) => Some (false, s)
  | (true, s) =>
      match processSendKeys r s with
      | (false, s) => Some (false, s)
      | (true, s) =>
          match processBrowserAction r s with
          | (false, s) => Some (false, s)
          | (true, s) =>
              if ExecPaneSeemsBusy r then
                let s := Countdown (GetWaitInterval D (fst s)) s in
                match self busyProbe s with
                | None => None
                | Some (true, s) => Some (true, s)
                | Some (false, s) => finishTurn self r s
                end
              else finishTurn self r s
          end
      end
  end.

(** The message sent for this turn: the panes, the shell of the exec pane
    and the text of the caller. *)
Definition buildCurrentMessage (currentTmuxWindow message : string) (s : St)
  : ChatMessage :=
  let execPaneEnv :=
    if negb (IsSubShell (ExecPane (fst s))) then
      ("Keep in mind, you are working within the shell: "
       ++ Shell (ExecPane (fst s)) ++ " and OS: " ++ OS (ExecPane (fst s)))%string
    else "" in
  {| Content := currentTmuxWindow ++ nlnl ++ execPaneEnv ++ nlnl ++ message;
     FromUser := true;
     Timestamp := clock (snd s) |}.

(** [history] before [m.Messages] is appended to it. *)
Definition systemPrompt (m : Manager) : list ChatMessage :=
  if WatchMode m then [watchPrompt D m]
  else if IsPrepared (ExecPane m) then [chatAssistantPrompt D m true]
  else [chatAssistantPrompt D m false].

(** The squash at the head of the turn. *)
Definition squashIfNeeded (s : St) : St :=
  if needSquash D (fst s) then
    let s := Println "Exceeded context size, squashing history..." s in
    blocked (setMessages (squashHistory D (Messages (fst s)) (clock (snd s))) (fst s),
             snd s)
  else s.

(** From the capture of the panes to the answer of the chat service: what
    was sent ([history] and [currentMessage] after it), the message of the
    turn and the answer. *)
Definition askModel (message : string) (s : St)
  : list ChatMessage * ChatMessage * ChatOutcome * St :=
  let '(currentTmuxWindow, s) := getTmuxPanesInXml s in
  let currentMessage := buildCurrentMessage currentTmuxWindow message s in
  (* build current chat history *)
  let history := systemPrompt (fst s) ++ Messages (fst s) in
  let sending := history ++ [currentMessage] in
  let '(outcome, s) :=
    GetResponseFromChatMessages sending (GetOpenRouterModel D (fst s)) s in
  (sending, currentMessage, outcome, s).

(** [if m.Config.Debug { debugChatMessages(...) }] *)
Definition debugIfEnabled (sending : list ChatMessage) (note : string) (s : St) : St :=
  if Debug (Cfg (fst s)) then debugChatMessages sending note s else s.

(** The reply as it would enter the history. *)
Definition responseMessage (response : string) (s : St) : ChatMessage :=
  {| Content := response; FromUser := false; Timestamp := clock (snd s) |}.

(** The body of [ProcessUserMessage]; [self] is the function itself, for
    the three recursive calls.  The spinner only draws. *)
Definition turn (self : string -> St -> Outcome) (message : string) (s : St)
  : Outcome :=
  (* Check if context management is needed before sending *)
  let s := squashIfNeeded s in
  (* check for status change before processing *)
  if idle (fst s) then Some (false, s)
  else
    let '(sending, currentMessage, outcome, s) := askModel message s in
    match outcome with
    | ChatCanceled err => Some (false, clearStatus s)
    | ChatFailed err =>
        let s := clearStatus s in
        let s := Println ("Failed to get response from AI: " ++ err) s in
        Some (false, debugIfEnabled sending ("ERROR: " ++ err) s)
    | ChatReply response =>
        (* check for status change again *)
        if idle (fst s) then Some (false, s)
        else
          match parseAIResponse (jsonUnmarshalMap D) response with
          | (_, Some err) =>
              let s := clearStatus s in
              let s := Println ("Failed to parse AI response: " ++ err) s in
              Some (false, debugIfEnabled sending ("PARSE ERROR: " ++ response) s)
          | (r, None) =>
              let s := debugIfEnabled sending response s in
              let responseMsg := responseMessage response s in
              (* did AI follow our guidelines? *)
              match aiFollowedGuidelines (WatchMode (fst s)) r with
              | (guidelineError, false) =>
                  let s := Println "AI didn't follow guidelines, trying again..." s in
                  let s := appendMessages currentMessage responseMsg s in
                  self guidelineError s
              | (_, true) =>
                  (* colorize code blocks in the response *)
                  let s :=
                    if negb (String.eqb (Message r) "") then
                      Println (Cosmetics D (Message r)) s
                    else s in
                  (* Don't append to history if AI is waiting for the pane or
                     is watch mode no comment *)
                  let s :=
                    if ExecPaneSeemsBusy r || NoComment r then s
                    else appendMessages currentMessage responseMsg s in
                  actOn self r s
              end
          end
    end.

(** [ProcessUserMessage(ctx, message)].  The recursion has no bound in the
    source; [fuel] bounds the number of nested turns. *)
Fixpoint ProcessUserMessage (fuel : nat) (message : string) (s : St) : Outcome :=
  match fuel with
  | O => None
  | S fuel' => turn (ProcessUserMessage fuel') message s
  end.

End Orchestrator.

(** ** The vocabulary of the properties *)

(** How many of the four boolean flags a reply sets. *)
Definition flagsSet (r : AIResponse) : nat :=
  List.length
    (filter (fun b : bool => b)
            [RequestAccomplished r; ExecPaneSeemsBusy r;
             WaitingForUserResponse r; NoComment r]).

Definition nonEmptyList {A} (l : list A) : bool :=
  match l with [] => false | _ :: _ => true end.

Definition nonEmptyString (s : string) : bool := negb (String.eqb s "").

(** How many of the four action kinds a reply populates. *)
Definition actionKinds (r : AIResponse) : nat :=
  List.length
    (filter (fun b : bool => b)
            [nonEmptyList (ExecCommand r); nonEmptyList (SendKeys r);
             nonEmptyString (PasteMultilineContent r);
             nonEmptyString (BrowserAction r)]).


(** No flag marker occurs in the reply. *)
Definition noFlagMarker (response : string) : Prop :=
  Contains response "<RequestAccomplished>1</RequestAccomplished>" = false
  /\ Contains response "<ExecPaneSeemsBusy>1</ExecPaneSeemsBusy>" = false
  /\ Contains response "<WaitingForUserResponse>1</WaitingForUserResponse>" = false
  /\ Contains response "<NoComment>1</NoComment>" = false.

(** Each match of the prompt pattern with the match after it, if any. *)
Fixpoint followers (matches : list PromptMatch) : list (option PromptMatch) :=
  match matches with
  | [] => []
  | _ :: rest => hd_error rest :: followers rest
  end.

Section Segments.

Variable promptRegex' : string -> option PromptMatch.

(** The command segments of a capture: one per prompt occurrence, with the
    prompt that follows it. *)
Definition segments (content : string) : list (PromptMatch * option PromptMatch) :=
  let matches := ExecPaneOps.findAllPrompts promptRegex' content in
  combine matches (followers matches).

Definition segmentGap (content : string) (seg : PromptMatch * option PromptMatch)
  : string :=
  ExecPaneOps.gapAfter content (fst seg) (snd seg).

Definition hasCommand (content : string) (seg : PromptMatch * option PromptMatch)
  : bool :=
  negb (blank (ExecPaneOps.commandOf (segmentGap content seg))).

(** The entry of a segment: its code is the status of the following prompt,
    [-1] when there is none. *)
Definition entryOf (content : string) (seg : PromptMatch * option PromptMatch)
  : CommandExecHistory :=
  {| Command := ExecPaneOps.commandOf (segmentGap content seg);
     Output := ExecPaneOps.outputOf (segmentGap content seg);
     Code := match snd seg with
             | Some following => matchStatus following
             | None => (-1)%Z
             end |}.

End Segments.


(** The pane shows a prompt the pattern does not know: every capture
    succeeds, and neither the capture nor its trailing line matches. *)
Definition foreignPane (promptRegex' : string -> option PromptMatch) (w : World) : Prop :=
  forall tick, exists content,
    captureAt w tick = Captured content
    /\ promptRegex' content = None
    /\ promptRegex' (ExecPaneOps.lastLine content) = None.

(** One of the three shell families. *)
Definition supportedShell (shell : string) : bool :=
  String.eqb shell "bash" || String.eqb shell "zsh" || String.eqb shell "fish".

Definition askedOutcome (D : Deps) (message : string) (s : St) : ChatOutcome :=
  snd (fst (askModel D message s)).
Definition askedState (D : Deps) (message : string) (s : St) : St :=
  snd (askModel D message s).

(** The chat call returned an error: a transport failure or a cancelled
    context. *)
Definition chatFailure (outcome : ChatOutcome) : bool :=
  match outcome with
  | ChatReply _ => false
  | ChatFailed _ | ChatCanceled _ => true
  end.

(** A continuation that reports success only with the status cleared. *)
Definition clearsOnSuccess (self : string -> St -> Outcome) : Prop :=
  forall message s s', self message s = Some (true, s') -> Status (fst s') = "".

(** ** A sample session, for concrete runs *)

Module Sample.

Definition QUOTE : string := String (ascii_of_nat 34) EmptyString.

(** A decoder that accepts the empty object and nothing else. *)
Definition emptyObjectOnly (content : string) : bool := String.eqb content "{}".

Definition deps : Deps :=
  {| jsonUnmarshalMap := emptyObjectOnly;
     needSquash := fun _ => false;
     squashHistory := fun messages _ => messages;
     watchPrompt := fun _ => mkChatMessage "watch the panes" false 0;
     chatAssistantPrompt := fun _ prepared =>
       mkChatMessage (if prepared then "assist, prepared" else "assist") false 0;
     GetOpenRouterModel := fun _ => "model";
     GetExecConfirm := fun _ => false;
     GetSendKeysConfirm := fun _ => false;
     GetPasteMultilineConfirm := fun _ => false;
     GetWaitInterval := fun _ => 5;
     HighlightCode := fun _ code => code;
     Cosmetics := fun text => text;
     promptRegex := CanonicalPrompt.promptRegex;
     maxPollAttempts := 3 |}.

Definition template : PromptTemplate :=
  {| bashPrompt := "export PS1='\u@\h:\w[\A][$?]» '";
     zshPrompt := "export PROMPT='%n@%m:%~[%T][%?]» '";
     fishPrompt := "function fish_prompt; printf '%s@%s:%s[%s][%d]» ' $USER (hostname -s) (prompt_pwd) (date +%H:%M) $status; end" |}.

Definition unsupported (shell : string) : string :=
  "Shell '" ++ shell ++ "' is not supported".
Definition required : string := "Name the shell: /prepare bash|zsh|fish".

Definition pane : TmuxPaneDetails :=
  {| Id := "test-pane"; CurrentCommand := "unknown"; LastLine := "";
     IsPrepared := false; IsSubShell := false; Shell := "bash"; OS := "linux" |}.

Definition manager : Manager :=
  {| Status := "running"; WatchMode := false; Messages := [];
     ExecPane := pane; ExecHistory := [];
     Cfg := {| Debug := false; MaxCaptureLines := 1000 |} |}.

(** A world that is never interrupted, where the user agrees to everything
    and the browser answers; the chat service and the pane are scripted. *)
Definition world (chat : nat -> ChatOutcome) (capture : nat -> CaptureOutcome) : World :=
  {| clock := 0;
     interruptAt := fun _ => false;
     chatAt := chat;
     confirmAt := fun _ => (true, "");
     captureAt := capture;
     panesXmlAt := fun _ => "<current_tmux_window_state/>";
     browserAt := fun _ => inl "done";
     paneLog := []; chatLog := []; console := []; debugLog := [] |}.

(** The capture of [TestExecWaitCapture_SSHScenario]: a remote prompt that
    the pattern does not know. *)
Definition sshCapture : string :=
  "user@remote-server:~$ ls -la
total 12
drwx------ 3 user user 4096 Jan 15 10:30 .
drwxr-xr-x 5 root root 4096 Jan 15 10:25 ..
-rw-r--r-- 1 user user   18 Jan 15 10:30 .bashrc
user@remote-server:~$ ".

(** The capture of [TestParseExecPaneCommandHistory_MixedFormats]. *)
Definition mixedCapture : string :=
  "user@host:/tmp[09:15][0]» echo " ++ QUOTE ++ "test1" ++ QUOTE ++ "
test1
different@machine:/home[23:59][1]» echo " ++ QUOTE ++ "test2" ++ QUOTE ++ "
test2
user@localhost:~[00:00][0]» ".

(** The third capture of [TestParseExecPaneCommandHistory_EdgeCases]: a
    command with no prompt after it. *)
Definition runningCapture : string :=
  "user@hostname:~[14:30][0]» long-running-command
output line 1
output line 2
still running...".

(** The first capture of [TestParseExecPaneCommandHistory_EdgeCases]. *)
Definition plainCapture : string :=
  "some random output
without any valid prompts
just plain text".


Definition chatAccomplished (_ : nat) : ChatOutcome :=
  ChatReply "Done. <RequestAccomplished>1</RequestAccomplished>".

Definition chatDown (_ : nat) : ChatOutcome := ChatFailed "connection refused".

Definition noCapture (_ : nat) : CaptureOutcome := Captured "".

Definition start (chat : nat -> ChatOutcome) : St := (manager, world chat noCapture).

(** A paste tag that holds a space, a line end and a tab. *)
Definition blankPaste : string := "<PasteMultilineContent> 
	</PasteMultilineContent>".

(** The pane of [TestExecWaitCapture_SSHScenario]: every capture shows the
    remote prompt, and the status is cleared during the third capture. *)
Definition sshWorld : World :=
  {| clock := 0;
     interruptAt := fun tick => tick =? 4;
     chatAt := chatDown;
     confirmAt := fun _ => (true, "");
     captureAt := fun _ => Captured sshCapture;
     panesXmlAt := fun _ => "";
     browserAt := fun _ => inl "done";
     paneLog := []; chatLog := []; console := []; debugLog := [] |}.

(** The capture of [TestExecWaitCapture_SuccessfulExecution]. *)
Definition successCapture : string :=
  "user@hostname:~[14:30][0]» echo " ++ QUOTE ++ "test successful" ++ QUOTE ++ "
test successful
user@hostname:~[14:31][0]» ".

Definition successCommand : string :=
  "echo " ++ QUOTE ++ "test successful" ++ QUOTE.


(** A turn whose reply reports the request accomplished. *)
Definition accomplishedRun : Outcome :=
  ProcessUserMessage deps 1 "list the files" (start chatAccomplished).

(** A rejected reply, then the accomplished one. *)
Definition chatPlainThenAccomplished (tick : nat) : ChatOutcome :=
  match tick with
  | 1 => ChatReply "I will look at the pane."
  | _ => ChatReply "Done. <RequestAccomplished>1</RequestAccomplished>"
  end.

Definition correctedRun : Outcome :=
  ProcessUserMessage deps 2 "list the files" (start chatPlainThenAccomplished).

End Sample.

(** ** Replies built from tags and markers *)

(** No byte of [s] is [c]. *)
Fixpoint freeOf (c : ascii) (s : string) : bool :=
  match s with
  | EmptyString => true
  | String x s' => negb (Ascii.eqb x c) && freeOf c s'
  end.

(** The four flag markers [parseAIResponse] looks for. *)
Definition flagMarkers : list string :=
  [ "<RequestAccomplished>1</RequestAccomplished>";
    "<ExecPaneSeemsBusy>1</ExecPaneSeemsBusy>";
    "<WaitingForUserResponse>1</WaitingForUserResponse>";
    "<NoComment>1</NoComment>" ].

(** The flag a marker stands for. *)
Definition flagOf (marker : string) (r : AIResponse) : bool :=
  if String.eqb marker "<RequestAccomplished>1</RequestAccomplished>"
  then RequestAccomplished r
  else if String.eqb marker "<ExecPaneSeemsBusy>1</ExecPaneSeemsBusy>"
  then ExecPaneSeemsBusy r
  else if String.eqb marker "<WaitingForUserResponse>1</WaitingForUserResponse>"
  then WaitingForUserResponse r
  else NoComment r.

(** [<name>content</name>] *)
Definition tagged (name content : string) : string :=
  "<" ++ name ++ ">" ++ content ++ "</" ++ name ++ ">".

(** A reply made of pieces, each a stretch of text and a tag after it. *)
Fixpoint renderTags (name : string) (pieces : list (string * string)) : string :=
  match pieces with
  | [] => EmptyString
  | (text, content) :: rest => text ++ tagged name content ++ renderTags name rest
  end.

(** Neither the texts nor the contents of the pieces hold a [<]. *)
Definition plainPieces (pieces : list (string * string)) : bool :=
  forallb (fun piece => freeOf "<" (fst piece) && freeOf "<" (snd piece)) pieces.

(** ** The watch loop *)

(** [startWatchMode(desc)].  [rounds] bounds the rounds of the watch loop and
    [depth] the nested turns of each round. *)
Fixpoint startWatchMode (D : Deps) (depth rounds : nat) (desc : string) (s : St)
  : option St :=
  match rounds with
  | O => None
  | S rounds' =>
      (* check status *)
      if idle (fst s) then Some s
      else
        let s := Countdown (GetWaitInterval D (fst s)) s in
        match ProcessUserMessage D depth desc s with
        | None => None
        | Some (accomplished, s) =>
            let s :=
              if accomplished
              then (setStatus "" (setWatchMode false (fst s)), snd s)
              else s in
            (* we continue running if status is still set *)
            if negb (idle (fst s)) && WatchMode (fst s)
            then startWatchMode D depth rounds' "" s
            else Some s
        end
  end.

(** ** What a turn does to the history and to the pane *)

(** [n] exchanges: a message of the user, then a reply of the model. *)
Fixpoint exchanges (n : nat) : list bool :=
  match n with
  | O => []
  | S n' => true :: false :: exchanges n'
  end.

(** The history of [s'] is the history of [s] and whole exchanges after it. *)
Definition grownByExchanges (s s' : St) : Prop :=
  exists n suffix,
    Messages (fst s') = Messages (fst s) ++ suffix
    /\ map FromUser suffix = exchanges n.

(** The history of [s'] is the history of [s]. *)
Definition sameMessages (s s' : St) : Prop := Messages (fst s') = Messages (fst s).

(** A continuation that only grows the history by exchanges. *)
Definition growsOnReturn (self : string -> St -> Outcome) : Prop :=
  forall message s b s', self message s = Some (b, s') -> grownByExchanges s s'.

(** Every action kind asks the user first. *)
Definition alwaysConfirm (D : Deps) : Prop :=
  (forall m, GetExecConfirm D m = true)
  /\ (forall m, GetSendKeysConfirm D m = true)
  /\ (forall m, GetPasteMultilineConfirm D m = true).

(** The user declines whatever is asked. *)
Definition userDeclines (w : World) : Prop :=
  forall tick, fst (confirmAt w tick) = false.

(** The directives of a list of commands sent with enter, in order. *)
Definition directivesOf (pane : string) (commands : list string) : list PaneDirective :=
  map (fun command => mkPaneDirective pane command true) commands.

(** ** Relations between the state before and after a turn *)


(** The state in which the actions of an accepted reply start: the reply is
    printed, and the exchange is appended unless the reply is a busy or a
    no-comment signal. *)
Definition accepted (D : Deps) (r : AIResponse) (cur reply : ChatMessage) (s : St) : St :=
  let s := if negb (String.eqb (Message r) "")
           then Println (Cosmetics D (Message r)) s else s in
  if ExecPaneSeemsBusy r || NoComment r then s
  else appendMessages cur reply s.


(** No interrupt ever lands. *)
Definition noInterrupts (w : World) : Prop := forall tick, interruptAt w tick = false.

(** Without interrupts, [s'] has the watch mode and the chat service of
    [s], and no interrupts either. *)
Definition calm (s s' : St) : Prop :=
  noInterrupts (snd s) ->
  noInterrupts (snd s')
  /\ WatchMode (fst s') = WatchMode (fst s)
  /\ chatAt (snd s') = chatAt (snd s).

(** The model never reports the pane busy and always follows the
    guidelines of watch mode. *)
Definition steadyModel (D : Deps) (w : World) : Prop :=
  forall tick response,
    chatAt w tick = ChatReply response ->
    ExecPaneSeemsBusy (fst (parseAIResponse (jsonUnmarshalMap D) response)) = false
    /\ snd (aiFollowedGuidelines true
              (fst (parseAIResponse (jsonUnmarshalMap D) response))) = true.

(** ** The browser client *)

Module Browser.

(** [config.Config.Browserless] *)
Record BrowserlessConfig := mkBrowserlessConfig {
  Token : string;
  BaseURL : string
}.

(** A [context.Context] made by [chromedp], by the order of its creation. *)
Definition Context : Type := nat.

(** [BrowserClient].  [cancel] is the stored closure, as the contexts it
    cancels in the order it cancels them; [None] is the nil function. *)
Record BrowserClient := mkBrowserClient {
  config : BrowserlessConfig;
  allocCtx : option Context;
  cancel : option (list Context);
  browser : option Context;
  cdpCtx : option Context;
  connected : bool
}.

(** One action run on a context with [Do]. *)
Inductive Action :=
| DoNavigate (url : string) (on : option Context)
| DoScreenshot (on : option Context)
| DoText (selector : string) (on : option Context).

(** The [chromedp] side: the number of contexts made so far, whether the
    remote allocator made as the [n]-th context comes back nil, what the
    [n]-th action answers (its data and its error), and what the client did:
    the allocators it asked for with their URL, the actions it ran, the
    contexts it cancelled, the lines it logged. *)
Record Chrome := mkChrome {
  made : nat;
  allocatorNil : nat -> bool;
  answerAt : nat -> string * error;
  allocators : list (Context * string);
  actions : list Action;
  cancelled : list Context;
  logged : list string
}.

Definition NewBrowserClient (cfg : BrowserlessConfig) : BrowserClient :=
  {| config := cfg; allocCtx := None; cancel := None; browser := None;
     cdpCtx := None; connected := false |}.

Definition notConnected : error := Some "not connected".

Definition Connect (b : BrowserClient) (w : Chrome) : error * BrowserClient * Chrome :=
  if String.eqb (Token (config b)) "" then (Some "browserless token required", b, w)
  else
    let wsURL := (BaseURL (config b) ++ "?token=" ++ Token (config b))%string in
    (* Create remote allocator *)
    let alloc := made w in
    if allocatorNil w alloc then
      (* allocCancel() *)
      (Some "failed to create remote allocator", b,
       {| made := S alloc; allocatorNil := allocatorNil w; answerAt := answerAt w;
          allocators := allocators w ++ [(alloc, wsURL)]; actions := actions w;
          cancelled := cancelled w ++ [alloc]; logged := logged w |})
    else
      (* Create browser context, then CDP context *)
      let browserCtx := S alloc in
      let cdp := S (S alloc) in
      (None,
       {| config := config b; allocCtx := Some alloc;
          (* the cancel functions, called in reverse order *)
          cancel := Some [cdp; browserCtx; alloc];
          browser := Some browserCtx; cdpCtx := Some cdp; connected := true |},
       {| made := S (S (S alloc)); allocatorNil := allocatorNil w;
          answerAt := answerAt w;
          allocators := allocators w ++ [(alloc, wsURL)]; actions := actions w;
          cancelled := cancelled w;
          logged := logged w ++ [("Connected to Browserless at " ++ wsURL)%string] |}).

(** [action.Do(b.cdpCtx)], with the error logged under the name of the
    method. *)
Definition run (what : string) (action : Action) (w : Chrome)
  : string * error * Chrome :=
  let '(data, err) := answerAt w (List.length (actions w)) in
  (data, err,
   {| made := made w; allocatorNil := allocatorNil w; answerAt := answerAt w;
      allocators := allocators w; actions := actions w ++ [action];
      cancelled := cancelled w;
      logged := match err with
                | Some e => logged w ++ [(what ++ " failed: " ++ e)%string]
                | None => logged w
                end |}).

(** [Navigate(ctx, url)]; the context of the caller is not used. *)
Definition Navigate (url : string) (b : BrowserClient) (w : Chrome) : error * Chrome :=
  if negb (connected b) then (notConnected, w)
  else let '(_, err, w) := run "Navigate" (DoNavigate url (cdpCtx b)) w in (err, w).

(** [Screenshot(ctx)] *)
Definition Screenshot (b : BrowserClient) (w : Chrome) : string * error * Chrome :=
  if negb (connected b) then ("", notConnected, w)
  else run "Screenshot" (DoScreenshot (cdpCtx b)) w.

(** [GetText(ctx, selector)] *)
Definition GetText (selector : string) (b : BrowserClient) (w : Chrome)
  : string * error * Chrome :=
  if negb (connected b) then ("", notConnected, w)
  else run "GetText" (DoText selector (cdpCtx b)) w.

Definition Close (b : BrowserClient) (w : Chrome) : error * BrowserClient * Chrome :=
  match cancel b with
  | Some contexts =>
      (None,
       {| config := config b; allocCtx := allocCtx b; cancel := cancel b;
          browser := browser b; cdpCtx := cdpCtx b; connected := false |},
       {| made := made w; allocatorNil := allocatorNil w; answerAt := answerAt w;
          allocators := allocators w; actions := actions w;
          cancelled := cancelled w ++ contexts; logged := logged w |})
  | None => (None, b, w)
  end.

(** A call of one of the five methods. *)
Inductive Call :=
| CallConnect
| CallNavigate (url : string)
| CallScreenshot
| CallGetText (selector : string)
| CallClose.

Definition call (c : Call) (s : BrowserClient * Chrome) : BrowserClient * Chrome :=
  let (b, w) := s in
  match c with
  | CallConnect => let '(_, b, w) := Connect b w in (b, w)
  | CallNavigate url => (b, snd (Navigate url b w))
  | CallScreenshot => (b, snd (Screenshot b w))
  | CallGetText selector => (b, snd (GetText selector b w))
  | CallClose => let '(_, b, w) := Close b w in (b, w)
  end.

(** The calls of a program using the client, one after the other. *)
Definition calls (cs : list Call) (s : BrowserClient * Chrome) : BrowserClient * Chrome :=
  fold_left (fun s c => call c s) cs s.

(** A connected client holds its cancel function and its CDP context. *)
Definition wellFormed (b : BrowserClient) : Prop :=
  connected b = true -> cancel b <> None /\ cdpCtx b <> None.

End Browser.

(** ** The command line *)

Module CLI.

Section Completer.

(** The package variables [commands] and [AllowedConfigKeys], declared in
    other files of the package. *)
Variable commands : list string.
Variable AllowedConfigKeys : list string.

(** [field[i]] *)
Definition fieldAt (field : list string) (i : nat) : string := nth i field "".

(** [len(field) == n || (len(field) == n+1 && !strings.HasSuffix(field[n], " "))] *)
Definition typing (field : list string) (n : nat) : bool :=
  (List.length field =? n)
  || ((List.length field =? S n) && negb (HasSuffix (fieldAt field n) " ")).

(** [len(field) > 0 && field[0] == name] *)
Definition under (field : list string) (name : string) : bool :=
  (0 <? List.length field) && String.eqb (fieldAt field 0) name.

(** The [Candidates] function of [newCompleter]: the list for completion
    and the list for display; [None] is the nil slice. *)
Definition Candidates (field : list string)
  : option (list string) * option (list string) :=
  (* Handle top-level commands *)
  if typing field 0 then (Some commands, Some commands)
  (* Handle /config subcommands *)
  else if under field "/config" && typing field 1
  then (Some ["set"; "get"], Some ["set"; "get"])
  else if under field "/config" && typing field 2
  then (Some AllowedConfigKeys, Some AllowedConfigKeys)
  (* Handle /prepare subcommands *)
  else if under field "/prepare" && typing field 1
  then (Some ["bash"; "zsh"; "fish"], Some ["bash"; "zsh"; "fish"])
  (* Handle /browser subcommands *)
  else if under field "/browser" && typing field 1
  then (Some ["navigate"; "screenshot"; "getText"],
        Some ["navigate"; "screenshot"; "getText"])
  else (None, None).

End Completer.

(** One of the three commands that have subcommands. *)
Definition knownCommand (name : string) : bool :=
  String.eqb name "/config" || String.eqb name "/prepare" || String.eqb name "/browser".

(** The history file as [Start] reads it: the lines of the file, trimmed,
    the empty ones left out. *)
Definition loadHistory (historyData : string) : list string :=
  filter nonEmptyString (map TrimSpace (splitLines historyData)).

(** The history file as [Start] writes it after a line is added: the
    entries joined by line ends. *)
Definition saveHistory (history : list string) : string := joinLines history.

End CLI.

(** ** More sample sessions *)

Module Sample2.

(** The sample helpers, with every confirmation switched on. *)
Definition confirming : Deps :=
  {| jsonUnmarshalMap := Sample.emptyObjectOnly;
     needSquash := fun _ => false;
     squashHistory := fun messages _ => messages;
     watchPrompt := watchPrompt Sample.deps;
     chatAssistantPrompt := chatAssistantPrompt Sample.deps;
     GetOpenRouterModel := fun _ => "model";
     GetExecConfirm := fun _ => true;
     GetSendKeysConfirm := fun _ => true;
     GetPasteMultilineConfirm := fun _ => true;
     GetWaitInterval := fun _ => 5;
     HighlightCode := fun _ code => code;
     Cosmetics := fun text => text;
     promptRegex := CanonicalPrompt.promptRegex;
     maxPollAttempts := 3 |}.

(** A world whose user declines. *)
Definition decliningWorld : World :=
  {| clock := 0;
     interruptAt := fun _ => false;
     chatAt := Sample.chatDown;
     confirmAt := fun _ => (false, "");
     captureAt := Sample.noCapture;
     panesXmlAt := fun _ => "";
     browserAt := fun _ => inl "done";
     paneLog := []; chatLog := []; console := []; debugLog := [] |}.

(** A reply that asks for one command. *)
Definition oneCommand : AIResponse :=
  {| Message := "<ExecCommand>rm -r build</ExecCommand>";
     SendKeys := []; ExecCommand := ["rm -r build"];
     PasteMultilineContent := ""; BrowserAction := "";
     RequestAccomplished := false; ExecPaneSeemsBusy := false;
     WaitingForUserResponse := false; NoComment := false |}.

(** Two commands with text around them. *)
Definition twoCommands : list (string * string) :=
  [("First ", " ls -la "); (", then ", "pwd")].

(** The session in watch mode. *)
Definition watching : St :=
  (setWatchMode true Sample.manager, Sample.world Sample.chatAccomplished Sample.noCapture).

(** A world where the interrupt lands during the chat call of the first
    turn, although the service answers with a command. *)
Definition interruptedWorld : World :=
  {| clock := 0;
     interruptAt := fun tick => tick =? 1;
     chatAt := fun _ => ChatReply "<ExecCommand>rm -r build</ExecCommand>";
     confirmAt := fun _ => (true, "");
     captureAt := Sample.noCapture;
     panesXmlAt := fun _ => "";
     browserAt := fun _ => inl "done";
     paneLog := []; chatLog := []; console := []; debugLog := [] |}.

Definition browserless : Browser.BrowserlessConfig :=
  {| Browser.Token := "secret"; Browser.BaseURL := "wss://chrome.example/" |}.

(** A [chromedp] that makes every context and answers every action. *)
Definition chrome : Browser.Chrome :=
  {| Browser.made := 0;
     Browser.allocatorNil := fun _ => false;
     Browser.answerAt := fun _ => ("ok", None);
     Browser.allocators := []; Browser.actions := [];
     Browser.cancelled := []; Browser.logged := [] |}.

End Sample2.

(** * Properties *)

(** ** Strings and tag patterns *)

Lemma drop_length n s : String.length (drop n s) = String.length s - n.
Proof.
  revert s; induction n as [|n IH]; intros [|c s]; simpl; auto.
Qed.

Lemma trimWith_AllSpace s :
  AllSpace s ->
  forall fuel, String.length s <= fuel -> trimWith spaceWidth fuel s = "".
Proof.
  induction 1 as [|s k Hw Hrest IH]; intros fuel Hfuel.
  - destruct fuel; reflexivity.
  - destruct s as [|c s]; [discriminate Hw|].
    destruct fuel as [|fuel]; [simpl in Hfuel; lia|].
    cbn [trimWith]. rewrite Hw. apply IH.
    rewrite drop_length. simpl in *. lia.
Qed.

(** [TrimSpace] leaves nothing of a string of white space. *)
Lemma TrimSpace_AllSpace s : AllSpace s -> TrimSpace s = "".
Proof.
  intros H. unfold TrimSpace, TrimLeftSpace.
  rewrite (trimWith_AllSpace s H) by lia. reflexivity.
Qed.

Lemma findAllTags_none re fuel s : findTag re s = None -> findAllTags re fuel s = [].
Proof. intros H; destruct fuel; simpl; [|rewrite H]; reflexivity. Qed.

(** Where the first match fails there is no match at all. *)
Lemma FindAll_none re s :
  FindStringSubmatch re s = None -> FindAllStringSubmatch re s = [].
Proof.
  unfold FindStringSubmatch, FindAllStringSubmatch. intros H.
  apply findAllTags_none. destruct (findTag re s); [discriminate|reflexivity].
Qed.

Example TrimSpace_keeps_inner_space : TrimSpace "  » a b » " = "» a b »".
Proof. vm_compute. reflexivity. Qed.

Example FindAll_in_document_order :
  FindAllStringSubmatch execCommandRegex
    "<ExecCommand>ls</ExecCommand> then <ExecCommand>pwd</ExecCommand>"
  = ["ls"; "pwd"].
Proof. vm_compute. reflexivity. Qed.

(** ** The response interpreter *)

Ltac open_response :=
  unfold parseAIResponse;
  cbn [fst snd Message SendKeys ExecCommand PasteMultilineContent BrowserAction
       RequestAccomplished ExecPaneSeemsBusy WaitingForUserResponse NoComment].



(** ** The guideline validator *)

(** C3: the validator answers by the three rules in their order: two or
    more flags, then two or more action kinds, then (outside watch mode)
    nothing at all; it accepts exactly when none applies, and it gives a
    corrective message exactly when it rejects. *)
Theorem validator_rules (watchMode : bool) (r : AIResponse) :
  aiFollowedGuidelines watchMode r =
    (if 2 <=? flagsSet r then (onlyOneFlag, false)
     else if 2 <=? actionKinds r then (onlyOneTag, false)
     else if negb watchMode && (flagsSet r =? 0) && (actionKinds r =? 0)
          then (atLeastOneTag, false)
     else ("", true))
  /\ snd (aiFollowedGuidelines watchMode r) =
       negb ((2 <=? flagsSet r) || (2 <=? actionKinds r)
             || (negb watchMode && (flagsSet r =? 0) && (actionKinds r =? 0)))
  /\ (if snd (aiFollowedGuidelines watchMode r)
      then fst (aiFollowedGuidelines watchMode r) = ""
      else fst (aiFollowedGuidelines watchMode r) <> "").
Proof.
  destruct r as [msg keys cmds paste browser ra busy waiting nc].
  unfold aiFollowedGuidelines, flagsSet, actionKinds;
    cbn [RequestAccomplished ExecPaneSeemsBusy WaitingForUserResponse NoComment
         ExecCommand SendKeys PasteMultilineContent BrowserAction].
  destruct ra, busy, waiting, nc, watchMode;
    destruct cmds as [|c1 cmds], keys as [|k1 keys],
             paste as [|p1 paste], browser as [|b1 browser];
    cbn; repeat split; discriminate.
Qed.

(** C10: a reply whose only tag is a paste of white space and which sets no
    flag is parsed to an empty paste, counts as no action and no flag, and is
    rejected outside watch mode for using no tag. *)
Theorem blank_paste_is_rejected (json : string -> bool) (response group : string) :
  FindStringSubmatch pasteRegex response = Some group ->
  AllSpace group ->
  FindStringSubmatch browserActionRegex response = None ->
  FindStringSubmatch sendKeysRegex response = None ->
  FindStringSubmatch execCommandRegex response = None ->
  noFlagMarker response ->
  PasteMultilineContent (fst (parseAIResponse json response)) = ""
  /\ actionKinds (fst (parseAIResponse json response)) = 0
  /\ flagsSet (fst (parseAIResponse json response)) = 0
  /\ aiFollowedGuidelines false (fst (parseAIResponse json response))
     = (atLeastOneTag, false).
Proof.
  intros Hp Hws Hb Hk Hc (F1 & F2 & F3 & F4).
  assert (E : fst (parseAIResponse json response) =
              mkAIResponse response [] [] "" "" false false false false).
  { open_response.
    rewrite Hp, Hb, (FindAll_none _ _ Hk), (FindAll_none _ _ Hc),
      (TrimSpace_AllSpace _ Hws), F1, F2, F3, F4. reflexivity. }
  rewrite E. repeat split.
Qed.

Lemma blank_paste_is_rejected_witness :
  aiFollowedGuidelines false
    (fst (parseAIResponse Sample.emptyObjectOnly Sample.blankPaste))
  = (atLeastOneTag, false).
Proof.
  apply (blank_paste_is_rejected Sample.emptyObjectOnly Sample.blankPaste (" 
	")); try reflexivity.
  - repeat (eapply AllSpace_rune; [reflexivity|]); apply AllSpace_nil.
  - repeat split.
Defined.

(** ** The transcript parser *)

Lemma skipn_nth_error {A} (l : list A) i :
  skipn i l = match nth_error l i with
              | Some x => x :: skipn (S i) l
              | None => []
              end.
Proof.
  revert i; induction l as [|x l IH]; intros [|i]; try reflexivity.
  cbn [nth_error]. rewrite <- IH. reflexivity.
Qed.

Lemma hd_error_skipn {A} (l : list A) i : hd_error (skipn i l) = nth_error l i.
Proof.
  rewrite skipn_nth_error. destruct (nth_error l i); reflexivity.
Qed.

(** The loop from index [i] handles the segments from the [i]-th on. *)
Lemma historyLoop_segments content matches :
  forall todo i,
    ExecPaneOps.historyLoop content matches i todo
    = map (entryOf content)
          (filter (hasCommand content)
                  (firstn todo (combine (skipn i matches)
                                        (followers (skipn i matches))))).
Proof.
  induction todo as [|todo IH]; intros i; [reflexivity|].
  cbn [ExecPaneOps.historyLoop].
  rewrite (skipn_nth_error matches i).
  destruct (nth_error matches i) as [pm|] eqn:Hi; [|reflexivity].
  cbn [followers combine firstn filter].
  rewrite hd_error_skipn.
  unfold hasCommand at 1, segmentGap at 1. cbn [fst snd].
  rewrite IH.
  destruct (blank _); cbn [negb map]; reflexivity.
Qed.

Lemma combine_followers_length matches :
  List.length (combine matches (followers matches)) = List.length matches.
Proof.
  induction matches as [|pm rest IH]; [reflexivity|].
  cbn [followers combine List.length]. rewrite IH. reflexivity.
Qed.

Lemma parseHistory_none (re : string -> option PromptMatch) content :
  re content = None -> ExecPaneOps.parseHistory re content = [].
Proof.
  intros Hnone. unfold ExecPaneOps.parseHistory, ExecPaneOps.findAllPrompts.
  cbn [ExecPaneOps.findAllPromptsFrom]. rewrite Hnone. reflexivity.
Qed.

(** C1: the parser returns the entries of the segments that have a command,
    in the order of the prompts; the code of an entry is the status of the
    prompt that follows its command, and [-1] when no prompt follows. *)
Theorem parser_pairs_command_with_next_status
  (re : string -> option PromptMatch) (content : string) :
  ExecPaneOps.parseHistory re content
  = map (entryOf content) (filter (hasCommand content) (segments re content)).
Proof.
  unfold ExecPaneOps.parseHistory, segments.
  rewrite historyLoop_segments. cbn [skipn].
  rewrite firstn_all2; [reflexivity|].
  rewrite combine_followers_length. lia.
Qed.

(** C5: a capture in which the prompt pattern does not match has no prompt
    occurrence, parses to the empty history, and leaves the session with an
    empty exec history; the parser has no error to return. *)
Theorem no_prompt_no_entry (re : string -> option PromptMatch) (content : string) :
  re content = None ->
  ExecPaneOps.findAllPrompts re content = []
  /\ ExecPaneOps.parseHistory re content = []
  /\ forall s,
       ExecHistory (fst (ExecPaneOps.parseExecPaneCommandHistoryWithContent
                           re content s)) = [].
Proof.
  intros Hnone.
  assert (E : ExecPaneOps.findAllPrompts re content = []).
  { unfold ExecPaneOps.findAllPrompts. cbn [ExecPaneOps.findAllPromptsFrom].
    rewrite Hnone. reflexivity. }
  assert (P : ExecPaneOps.parseHistory re content = []).
  { unfold ExecPaneOps.parseHistory. rewrite E. reflexivity. }
  split; [exact E|]. split; [exact P|].
  intros s. exact P.
Qed.

Lemma no_prompt_no_entry_witness :
  ExecPaneOps.parseHistory CanonicalPrompt.promptRegex Sample.plainCapture = [].
Proof.
  apply (no_prompt_no_entry CanonicalPrompt.promptRegex Sample.plainCapture).
  vm_compute. reflexivity.
Defined.

(** [TestParseExecPaneCommandHistory_MixedFormats]: the first command gets
    the status of the second prompt. *)
Example parser_mixed_formats :
  ExecPaneOps.parseHistory CanonicalPrompt.promptRegex Sample.mixedCapture
  = [ mkCommandExecHistory ("echo " ++ Sample.QUOTE ++ "test1" ++ Sample.QUOTE)
                           "test1" 1;
      mkCommandExecHistory ("echo " ++ Sample.QUOTE ++ "test2" ++ Sample.QUOTE)
                           "test2" 0 ].
Proof. vm_compute. reflexivity. Qed.

(** [TestParseExecPaneCommandHistory_EdgeCases], third capture: no prompt
    after the command. *)
Example parser_unfinished_command :
  ExecPaneOps.parseHistory CanonicalPrompt.promptRegex Sample.runningCapture
  = [ mkCommandExecHistory "long-running-command"
        "output line 1
output line 2
still running..." (-1) ].
Proof. vm_compute. reflexivity. Qed.

(** [TestParseExecPaneCommandHistory_EdgeCases], second capture: prompts
    with no command. *)
Example parser_empty_prompts :
  ExecPaneOps.parseHistory CanonicalPrompt.promptRegex
    "user@hostname:~[14:30][0]» 
user@hostname:~[14:30][0]» " = [].
Proof. vm_compute. reflexivity. Qed.

(** ** The poller *)

Section Poller.

Variable re : string -> option PromptMatch.

Lemma pollPane_foreign attempts :
  forall s, foreignPane re (snd s) ->
    exists content s',
      ExecPaneOps.pollPane re attempts s = (inl content, s')
      /\ re content = None
      /\ paneLog (snd s') = paneLog (snd s)
      /\ (idle (fst s') = true
          \/ clock (snd s') = clock (snd s) + 2 * attempts + 1).
Proof.
  induction attempts as [|attempts IH]; intros [m w] Hforeign;
    destruct (Hforeign (clock w)) as (content & Hcap & Hnone & Hlast);
    cbn [snd] in Hcap;
    cbn [ExecPaneOps.pollPane TmuxCapturePane snd fst];
    rewrite Hcap; unfold ExecPaneOps.promptReady; rewrite Hlast;
    cbn [orb].
  - destruct (idle _) eqn:Hidle.
    + eexists _, _. split; [reflexivity|]. repeat split; auto.
    + eexists _, _. split; [reflexivity|]. repeat split; auto.
      right. cbn. lia.
  - destruct (idle _) eqn:Hidle.
    + eexists _, _. split; [reflexivity|]. repeat split; auto.
    + match goal with |- context [ExecPaneOps.pollPane _ _ ?s1] =>
        destruct (IH s1) as (c' & s' & Hrun & Hc' & Hlog & Hend) end.
      { intros tick. apply (Hforeign tick). }
      exists c', s'. split; [exact Hrun|]. split; [exact Hc'|].
      split; [rewrite Hlog; reflexivity|].
      destruct Hend as [Hend|Hend]; [left; exact Hend|right].
      rewrite Hend. cbn. lia.
Qed.

(** C2: on a pane whose captures never match the prompt pattern,
    [ExecWaitCapture] returns the zero entry with the error "failed to
    parse command history"; the command is the one directive it sent; the
    exec history is empty; and the poll ended because the status was
    cleared or because every attempt was used (one capture, then a sleep
    and a capture per attempt). *)
Theorem foreign_prompt_fails_to_parse
  (maxAttempts : nat) (command : string) (s : St) :
  foreignPane re (snd s) ->
  let result := ExecPaneOps.ExecWaitCapture re maxAttempts command s in
  fst result = (zeroCommandExecHistory, Some ExecPaneOps.parseFailure)
  /\ paneLog (snd (snd result))
     = paneLog (snd s) ++ [mkPaneDirective (Id (ExecPane (fst s))) command true]
  /\ ExecHistory (fst (snd result)) = []
  /\ (idle (fst (snd result)) = true
      \/ clock (snd (snd result)) = clock (snd s) + 2 * maxAttempts + 1).
Proof.
  intros Hforeign result. subst result.
  unfold ExecPaneOps.ExecWaitCapture.
  destruct s as [m w].
  destruct (pollPane_foreign maxAttempts
              (TmuxSendCommandToPane (Id (ExecPane (fst (m, w)))) command true (m, w)))
    as (content & s' & Hrun & Hnone & Hlog & Hend).
  { intros tick. apply (Hforeign tick). }
  rewrite Hrun.
  unfold ExecPaneOps.parseExecPaneCommandHistoryWithContent.
  rewrite (parseHistory_none _ _ Hnone).
  cbn [fst snd ExecHistory setExecHistory List.rev].
  split; [reflexivity|]. split; [exact Hlog|]. split; [reflexivity|].
  exact Hend.
Qed.

End Poller.

Lemma foreign_prompt_fails_to_parse_witness :
  fst (ExecPaneOps.ExecWaitCapture CanonicalPrompt.promptRegex 10 "ls -la"
         (Sample.manager, Sample.sshWorld))
  = (zeroCommandExecHistory, Some "failed to parse command history").
Proof.
  apply (foreign_prompt_fails_to_parse CanonicalPrompt.promptRegex 10 "ls -la"
           (Sample.manager, Sample.sshWorld)).
  intros tick. exists Sample.sshCapture. repeat split; vm_compute; reflexivity.
Defined.

(** [TestExecWaitCapture_SSHScenario]: one send, three captures, the status
    cleared during the third, and the parse failure. *)
Example poller_ssh_scenario :
  let result := ExecPaneOps.ExecWaitCapture CanonicalPrompt.promptRegex 10 "ls -la"
                  (Sample.manager, Sample.sshWorld) in
  fst result = (zeroCommandExecHistory, Some "failed to parse command history")
  /\ map directive (paneLog (snd (snd result))) = ["ls -la"]
  /\ clock (snd (snd result)) = 5
  /\ Status (fst (snd result)) = "".
Proof. vm_compute. repeat split. Qed.

(** [TestExecWaitCapture_SuccessfulExecution] *)
Example poller_successful_execution :
  fst (ExecPaneOps.ExecWaitCapture CanonicalPrompt.promptRegex 10
         Sample.successCommand
         (Sample.manager,
          Sample.world Sample.chatDown (fun _ => Captured Sample.successCapture)))
  = (mkCommandExecHistory Sample.successCommand "test successful" 0, None).
Proof. vm_compute. reflexivity. Qed.

(** ** Preparation *)

Section Preparation.

Variable template : PromptTemplate.
Variable unsupportedShell : string -> string.
Variable shellRequired : string.

Ltac by_shell :=
  unfold ExecPaneOps.Prepare, ExecPaneOps.PrepareExecPaneWithShell, supportedShell in *;
  cbn [fst snd] in *;
  repeat match goal with
         | H : (_ || _) = false |- _ => apply orb_false_elim in H; destruct H
         | H : String.eqb ?a ?b = false |- _ => rewrite H; clear H
         end.

(** C8: for bash, zsh and fish the preparation sends two directives, the
    set-prompt command of the shell and then the clear-screen key, and
    prints nothing; for any other shell it sends nothing and prints the
    warning; with no shell named and a current program that is not one of
    the three, it sends nothing and prints a warning. *)
Theorem prepare_directives (s : St) :
  let pane := Id (ExecPane (fst s)) in
  let withShell := ExecPaneOps.PrepareExecPaneWithShell template unsupportedShell in
  let installed (command : string) (s' : St) :=
    paneLog (snd s')
    = paneLog (snd s) ++ [ mkPaneDirective pane command true;
                           mkPaneDirective pane ExecPaneOps.clearScreen false ]
    /\ console (snd s') = console (snd s) in
  installed (bashPrompt template) (withShell "bash" s)
  /\ installed (zshPrompt template) (withShell "zsh" s)
  /\ installed (fishPrompt template) (withShell "fish" s)
  /\ (forall shell, supportedShell shell = false ->
        paneLog (snd (withShell shell s)) = paneLog (snd s)
        /\ console (snd (withShell shell s))
           = console (snd s) ++ [unsupportedShell shell])
  /\ (supportedShell (CurrentCommand (ExecPane (fst s))) = false ->
        let s' := ExecPaneOps.Prepare template unsupportedShell shellRequired None s in
        paneLog (snd s') = paneLog (snd s)
        /\ exists warning, console (snd s') = console (snd s) ++ [warning])
  /\ (forall shell,
        ExecPaneOps.Prepare template unsupportedShell shellRequired (Some shell) s
        = withShell shell s).
Proof.
  destruct s as [m w]. cbn zeta.
  split; [|split; [|split; [|split; [|split]]]].
  - cbn. rewrite <- app_assoc. split; reflexivity.
  - cbn. rewrite <- app_assoc. split; reflexivity.
  - cbn. rewrite <- app_assoc. split; reflexivity.
  - intros shell Hshell. by_shell. split; reflexivity.
  - intros Hshell. by_shell.
    destruct (IsSubShell (ExecPane m)); [split; [reflexivity|eexists; reflexivity]|].
    by_shell. split; [reflexivity|eexists; reflexivity].
  - reflexivity.
Qed.

End Preparation.

Lemma prepare_directives_witness :
  map directive
    (paneLog (snd (ExecPaneOps.PrepareExecPaneWithShell Sample.template
                     Sample.unsupported "zsh" (Sample.start Sample.chatDown))))
  = [zshPrompt Sample.template; "C-l"]
  /\ paneLog (snd (ExecPaneOps.PrepareExecPaneWithShell Sample.template
                     Sample.unsupported "tcsh" (Sample.start Sample.chatDown))) = []
  /\ paneLog (snd (ExecPaneOps.Prepare Sample.template Sample.unsupported
                     Sample.required None (Sample.start Sample.chatDown))) = [].
Proof.
  pose proof (prepare_directives Sample.template Sample.unsupported Sample.required
                (Sample.start Sample.chatDown)) as (_ & Hzsh & _ & Hbad & Hnone & _).
  split; [|split].
  - rewrite (proj1 Hzsh). reflexivity.
  - rewrite (proj1 (Hbad "tcsh" eq_refl)). reflexivity.
  - rewrite (proj1 (Hnone eq_refl)). reflexivity.
Defined.

(** ** The turn orchestrator *)

Section TurnFacts.

Variable D : Deps.

Lemma askModel_keeps message s :
  Messages (fst (askedState D message s)) = Messages (fst s)
  /\ paneLog (snd (askedState D message s)) = paneLog (snd s)
  /\ ExecHistory (fst (askedState D message s)) = ExecHistory (fst s).
Proof.
  destruct s as [m w]. unfold askedState, askModel, getTmuxPanesInXml,
    GetResponseFromChatMessages. cbn.
  destruct (interruptAt w (clock w)), (interruptAt w (S (clock w))); repeat split.
Qed.

Lemma squashIfNeeded_keeps s :
  paneLog (snd (squashIfNeeded D s)) = paneLog (snd s)
  /\ ExecHistory (fst (squashIfNeeded D s)) = ExecHistory (fst s)
  /\ (needSquash D (fst s) = false -> squashIfNeeded D s = s).
Proof.
  destruct s as [m w]. unfold squashIfNeeded. cbn [fst snd].
  destruct (needSquash D m); [|repeat split].
  cbn. destruct (interruptAt w (clock w)); repeat split; discriminate.
Qed.

Lemma debugIfEnabled_keeps sending note s :
  fst (debugIfEnabled sending note s) = fst s
  /\ paneLog (snd (debugIfEnabled sending note s)) = paneLog (snd s)
  /\ clock (snd (debugIfEnabled sending note s)) = clock (snd s).
Proof.
  destruct s as [m w]. unfold debugIfEnabled. cbn [fst snd].
  destruct (Debug (Cfg m)); repeat split.
Qed.

(** C7: when the session is running and the chat call returns an error, be
    it a transport failure or a cancelled context, the turn returns [false]
    with the status cleared and with the messages it had when the turn
    reached the call; if the turn did not squash, these are the messages it
    started with. *)
Theorem chat_failure_aborts_turn (fuel : nat) (message : string) (s : St) :
  idle (fst (squashIfNeeded D s)) = false ->
  chatFailure (askedOutcome D message (squashIfNeeded D s)) = true ->
  exists s',
    ProcessUserMessage D (S fuel) message s = Some (false, s')
    /\ Status (fst s') = ""
    /\ Messages (fst s') = Messages (fst (squashIfNeeded D s))
    /\ (needSquash D (fst s) = false -> Messages (fst s') = Messages (fst s)).
Proof.
  intros Hrun Hfail. cbn [ProcessUserMessage]. unfold turn. rewrite Hrun.
  pose proof (askModel_keeps message (squashIfNeeded D s)) as (Hmsg & _ & _).
  unfold askedOutcome in Hfail. unfold askedState in Hmsg.
  destruct (askModel D message (squashIfNeeded D s)) as [[[sending cur] outcome] s1].
  cbn [fst snd] in *.
  assert (Hsame : needSquash D (fst s) = false ->
                  Messages (fst s1) = Messages (fst s)).
  { intros Hno. rewrite Hmsg.
    rewrite (proj2 (proj2 (squashIfNeeded_keeps s)) Hno). reflexivity. }
  destruct outcome as [response|err|err]; [discriminate Hfail| |].
  - eexists. split; [reflexivity|].
    destruct (debugIfEnabled_keeps sending ("ERROR: " ++ err)
                (Println ("Failed to get response from AI: " ++ err) (clearStatus s1)))
      as (Hm & _ & _).
    rewrite Hm. destruct s1 as [m1 w1]. cbn. repeat split; auto.
  - eexists. split; [reflexivity|]. destruct s1 as [m1 w1]. cbn. repeat split; auto.
Qed.


Lemma finishTurn_true self r s s' :
  clearsOnSuccess self ->
  finishTurn D self r s = Some (true, s') -> Status (fst s') = "".
Proof.
  intros Hself. unfold finishTurn.
  destruct (processPaste D r s) as [[] s1]; [|discriminate].
  destruct (RequestAccomplished r).
  { intros E; injection E as <-. reflexivity. }
  destruct (WaitingForUserResponse r); [discriminate|].
  destruct (NoComment r); [discriminate|].
  destruct (negb (WatchMode (fst s1))); [|discriminate].
  destruct (self updateProbe s1) as [[[] t]|] eqn:Eself; try discriminate.
  intros E; injection E as <-. exact (Hself _ _ _ Eself).
Qed.

Lemma actOn_true self r s s' :
  clearsOnSuccess self ->
  actOn D self r s = Some (true, s') -> Status (fst s') = "".
Proof.
  intros Hself. unfold actOn.
  destruct (execCommands D (ExecCommand r) s) as [[] s1]; [|discriminate].
  destruct (processSendKeys D r s1) as [[] s2]; [|discriminate].
  destruct (processBrowserAction D r s2) as [[] s3]; [|discriminate].
  destruct (ExecPaneSeemsBusy r); [|apply finishTurn_true; exact Hself].
  destruct (self busyProbe _) as [[[] t]|] eqn:Eself; try discriminate.
  - intros E; injection E as <-. exact (Hself _ _ _ Eself).
  - apply finishTurn_true; exact Hself.
Qed.

(** One turn reports success only with the status cleared, if the nested
    turns do. *)
Lemma turn_true self message s s' :
  clearsOnSuccess self ->
  turn D self message s = Some (true, s') -> Status (fst s') = "".
Proof.
  intros Hself. unfold turn.
  destruct (idle (fst (squashIfNeeded D s))); [discriminate|].
  destruct (askModel D message (squashIfNeeded D s)) as [[[sending cur] outcome] s1].
  destruct outcome as [response|err|err]; try discriminate.
  destruct (idle (fst s1)); [discriminate|].
  destruct (parseAIResponse (jsonUnmarshalMap D) response) as [r [err|]];
    [discriminate|].
  destruct (aiFollowedGuidelines _ r) as [guidelineError []].
  - apply actOn_true; exact Hself.
  - apply Hself.
Qed.

(** C9: whenever [ProcessUserMessage] returns [true], the status is the
    empty string in the state it returns, whatever the depth of the busy
    re-probes, guideline corrections and update probes it went through. *)
Theorem accomplished_leaves_session_idle (fuel : nat) (message : string) (s s' : St) :
  ProcessUserMessage D fuel message s = Some (true, s') -> Status (fst s') = "".
Proof.
  revert message s s'. induction fuel as [|fuel IH]; intros message s s'.
  - discriminate.
  - cbn [ProcessUserMessage]. apply turn_true. exact IH.
Qed.

End TurnFacts.

(** ** Concrete turns *)

Lemma chat_failure_aborts_turn_witness :
  option_map (fun o => (fst o, Status (fst (snd o)), Messages (fst (snd o))))
    (ProcessUserMessage Sample.deps 1 "list the files" (Sample.start Sample.chatDown))
  = Some (false, "", []).
Proof.
  destruct (chat_failure_aborts_turn Sample.deps 0 "list the files"
              (Sample.start Sample.chatDown) eq_refl eq_refl)
    as (s' & Hrun & Hstatus & Hmessages & _).
  rewrite Hrun. cbn [option_map fst snd]. rewrite Hstatus, Hmessages. reflexivity.
Defined.



Lemma accomplished_leaves_session_idle_witness :
  option_map fst Sample.accomplishedRun = Some true
  /\ option_map (fun o => Status (fst (snd o))) Sample.accomplishedRun = Some "".
Proof.
  split; [reflexivity|].
  destruct Sample.accomplishedRun as [[[] s']|] eqn:Erun.
  - cbn [option_map snd].
    rewrite (accomplished_leaves_session_idle Sample.deps 1 "list the files"
               (Sample.start Sample.chatAccomplished) s' Erun).
    reflexivity.
  - vm_compute in Erun. discriminate Erun.
  - vm_compute in Erun. discriminate Erun.
Defined.

(** A rejected reply, the correction, then the accomplished reply: the run
    returns [true] with the status cleared and the four messages of the two
    turns in the history. *)
Example corrected_then_accomplished :
  option_map (fun o => (fst o, Status (fst (snd o)),
                        map FromUser (Messages (fst (snd o)))))
    Sample.correctedRun
  = Some (true, "", [true; false; true; false]).
Proof. vm_compute. reflexivity. Qed.

(** * Further properties *)

(** ** Replies built from tags and markers *)

Lemma sapp_assoc (a b c : string) : ((a ++ b) ++ c = a ++ (b ++ c))%string.
Proof. induction a as [|x a IH]; simpl; [reflexivity|rewrite IH; reflexivity]. Qed.

Lemma sapp_length (a b : string) :
  String.length (a ++ b)%string = String.length a + String.length b.
Proof. induction a as [|x a IH]; simpl; [reflexivity|rewrite IH; reflexivity]. Qed.

Lemma HasPrefix_app (m rest : string) : HasPrefix (m ++ rest)%string m = true.
Proof.
  induction m as [|c m IH]; simpl; [destruct rest; reflexivity|].
  rewrite Ascii.eqb_refl, IH. reflexivity.
Qed.

Lemma drop_app (a b : string) : drop (String.length a) (a ++ b)%string = b.
Proof. induction a as [|x a IH]; simpl; [destruct b; reflexivity|exact IH]. Qed.

Lemma take_app (a b : string) : take (String.length a) (a ++ b)%string = a.
Proof.
  induction a as [|x a IH]; simpl; [destruct b; reflexivity|rewrite IH; reflexivity].
Qed.

Lemma drop_add (a b : nat) (s : string) : drop (a + b) s = drop b (drop a s).
Proof.
  revert s; induction a as [|a IH]; intros s; [reflexivity|].
  destruct s as [|c s]; cbn [Nat.add drop]; [destruct b; reflexivity|apply IH].
Qed.

Lemma Index_unfold (s sub : string) :
  Index s sub = if HasPrefix s sub then Some 0
                else match s with
                     | EmptyString => None
                     | String _ s' => option_map S (Index s' sub)
                     end.
Proof. destruct s; reflexivity. Qed.

(** A string is found in whatever holds it. *)
Lemma Index_app_found (pre m post : string) : Index (pre ++ m ++ post)%string m <> None.
Proof.
  induction pre as [|c pre IH].
  - cbn [append]. rewrite Index_unfold, HasPrefix_app. discriminate.
  - cbn [append]. rewrite Index_unfold.
    destruct (HasPrefix _ _); [discriminate|].
    destruct (Index (pre ++ m ++ post)%string m); [discriminate|contradiction].
Qed.

Lemma Contains_app (pre m post : string) : Contains (pre ++ m ++ post)%string m = true.
Proof.
  unfold Contains. pose proof (Index_app_found pre m post).
  destruct (Index _ _); [reflexivity|contradiction].
Qed.

Lemma flag_found (json : string -> bool) (marker pre post : string) :
  In marker flagMarkers ->
  flagOf marker (fst (parseAIResponse json (pre ++ marker ++ post)%string)) = true.
Proof.
  intros Hin. unfold flagMarkers in Hin. cbn [In] in Hin.
  destruct Hin as [<-|[<-|[<-|[<-|[]]]]];
    unfold flagOf; cbn [String.eqb Ascii.eqb Bool.eqb];
    unfold parseAIResponse;
    cbn [fst RequestAccomplished ExecPaneSeemsBusy WaitingForUserResponse NoComment];
    apply Contains_app.
Qed.

(** X1: a flag marker sets its flag wherever it stands in the reply,
    whatever comes before and after it. *)
Theorem marker_anywhere_sets_flag (json : string -> bool) (marker pre post : string) :
  In marker flagMarkers ->
  flagOf marker (fst (parseAIResponse json (pre ++ marker ++ post)%string)) = true.
Proof.
  intros Hin. unfold flagMarkers in Hin. cbn [In] in Hin.
  destruct Hin as [<-|[<-|[<-|[<-|[]]]]]; unfold flagOf;
    cbn [String.eqb Ascii.eqb Bool.eqb]; unfold parseAIResponse;
    cbn [fst RequestAccomplished ExecPaneSeemsBusy WaitingForUserResponse NoComment];
    unfold Contains;
    match goal with
    | |- match Index ?s ?m with _ => _ end = true =>
        destruct (Index s m) eqn:Hfound; [reflexivity|]
    end;
    exfalso; revert Hfound; apply Index_app_found.
Qed.

Lemma marker_anywhere_sets_flag_witness :
  WaitingForUserResponse
    (fst (parseAIResponse Sample.emptyObjectOnly
            "Which file? <WaitingForUserResponse>1</WaitingForUserResponse> Thanks."))
  = true.
Proof.
  apply (marker_anywhere_sets_flag Sample.emptyObjectOnly
           "<WaitingForUserResponse>1</WaitingForUserResponse>"
           "Which file? " " Thanks.").
  cbn. tauto.
Defined.

(** X2: a reply that holds two different flag markers, wherever they stand,
    is rejected with the one-flag message, in watch mode as well. *)
Theorem two_markers_are_rejected
  (json : string -> bool) (watchMode : bool) (m1 m2 a b c : string) :
  In m1 flagMarkers -> In m2 flagMarkers -> m1 <> m2 ->
  aiFollowedGuidelines watchMode
    (fst (parseAIResponse json (a ++ m1 ++ b ++ m2 ++ c)%string))
  = (onlyOneFlag, false).
Proof.
  intros H1 H2 Hneq.
  pose proof (flag_found json m1 a (b ++ m2 ++ c)%string H1) as F1.
  pose proof (flag_found json m2 (a ++ m1 ++ b)%string c H2) as F2.
  rewrite !sapp_assoc in F2.
  set (r := fst (parseAIResponse json (a ++ m1 ++ b ++ m2 ++ c)%string)) in *.
  clearbody r.
  unfold flagMarkers in H1, H2. cbn [In] in H1, H2.
  destruct r as [msg keys cmds paste browser ra busy waiting nc].
  destruct H1 as [<-|[<-|[<-|[<-|[]]]]]; destruct H2 as [<-|[<-|[<-|[<-|[]]]]];
    try (exfalso; apply Hneq; reflexivity);
    unfold flagOf in F1, F2; cbn in F1, F2; subst;
    unfold aiFollowedGuidelines; cbn [RequestAccomplished ExecPaneSeemsBusy
      WaitingForUserResponse NoComment];
    repeat match goal with |- context [incrIf ?b _] => is_var b; destruct b end;
    reflexivity.
Qed.

Lemma two_markers_are_rejected_witness :
  aiFollowedGuidelines true
    (fst (parseAIResponse Sample.emptyObjectOnly
            "Done <RequestAccomplished>1</RequestAccomplished> or not <NoComment>1</NoComment>."))
  = (onlyOneFlag, false).
Proof.
  apply (two_markers_are_rejected Sample.emptyObjectOnly true
           "<RequestAccomplished>1</RequestAccomplished>" "<NoComment>1</NoComment>"
           "Done " " or not " ".").
  - cbn. tauto.
  - cbn. tauto.
  - discriminate.
Defined.

Lemma freeOf_Index_none (s t : string) :
  freeOf "<" s = true -> Index s (String "<" t) = None.
Proof.
  induction s as [|c s IH]; intros H; [reflexivity|].
  cbn [freeOf] in H. apply andb_prop in H. destruct H as [Hc Hs].
  rewrite Index_unfold. cbn [HasPrefix].
  destruct (Ascii.eqb "<" c) eqn:E.
  - apply Ascii.eqb_eq in E. subst c. discriminate Hc.
  - cbn [andb]. rewrite (IH Hs). reflexivity.
Qed.

Lemma freeOf_Index_skip (pre t rest : string) :
  freeOf "<" pre = true ->
  Index (pre ++ String "<" (t ++ rest))%string (String "<" t)
  = Some (String.length pre).
Proof.
  induction pre as [|c pre IH]; intros H.
  - cbn [append String.length]. rewrite Index_unfold.
    change (String "<" (t ++ rest)%string) with (String "<" t ++ rest)%string.
    rewrite HasPrefix_app. reflexivity.
  - cbn [freeOf] in H. apply andb_prop in H. destruct H as [Hc Hs].
    cbn [append String.length]. rewrite Index_unfold. cbn [HasPrefix].
    destruct (Ascii.eqb "<" c) eqn:E.
    + apply Ascii.eqb_eq in E. subst c. discriminate Hc.
    + cbn [andb]. rewrite (IH Hs). reflexivity.
Qed.

Lemma tagged_split (name content : string) :
  tagged name content
  = (openTag (MustCompileTag name) ++ content ++ closeTag (MustCompileTag name))%string.
Proof.
  unfold tagged, MustCompileTag. cbn [openTag closeTag].
  rewrite !sapp_assoc. reflexivity.
Qed.

(** The match of a tag after plain text, with plain content. *)
Lemma findTag_plain (name pre content rest : string) :
  freeOf "<" pre = true -> freeOf "<" content = true ->
  findTag (MustCompileTag name) (pre ++ tagged name content ++ rest)%string
  = Some (content, rest).
Proof.
  intros Hpre Hcontent. rewrite tagged_split. unfold findTag, MustCompileTag.
  cbn [openTag closeTag].
  set (open := ("<" ++ name ++ ">")%string).
  set (close := ("</" ++ name ++ ">")%string).
  replace (pre ++ (open ++ content ++ close) ++ rest)%string
    with (pre ++ open ++ (content ++ close ++ rest))%string
    by (rewrite !sapp_assoc; reflexivity).
  assert (Hopen : Index (pre ++ open ++ content ++ close ++ rest)%string open
                  = Some (String.length pre)).
  { exact (freeOf_Index_skip pre (name ++ ">") (content ++ close ++ rest) Hpre). }
  rewrite Hopen, drop_add, drop_app, drop_app.
  assert (Hclose : Index (content ++ close ++ rest)%string close
                   = Some (String.length content)).
  { exact (freeOf_Index_skip content ("/" ++ name ++ ">") rest Hcontent). }
  rewrite Hclose, take_app, drop_add, drop_app, drop_app. reflexivity.
Qed.

Lemma findTag_none (name s : string) :
  freeOf "<" s = true -> findTag (MustCompileTag name) s = None.
Proof.
  intros H. unfold findTag, MustCompileTag. cbn [openTag append].
  rewrite (freeOf_Index_none s _ H). reflexivity.
Qed.

Lemma findAllTags_plain (name : string) (pieces : list (string * string)) :
  forall fuel post,
    plainPieces pieces = true -> freeOf "<" post = true ->
    String.length (renderTags name pieces ++ post)%string < fuel ->
    findAllTags (MustCompileTag name) fuel (renderTags name pieces ++ post)%string
    = map snd pieces.
Proof.
  induction pieces as [|[text content] pieces IH]; intros fuel post Hplain Hpost Hfuel.
  - cbn [renderTags append map]. apply findAllTags_none, findTag_none, Hpost.
  - cbn [plainPieces forallb fst snd] in Hplain.
    apply andb_prop in Hplain. destruct Hplain as [Hpiece Hrest].
    apply andb_prop in Hpiece. destruct Hpiece as [Htext Hcontent].
    destruct fuel as [|fuel]; [lia|].
    cbn [renderTags findAllTags map snd].
    replace ((text ++ tagged name content ++ renderTags name pieces) ++ post)%string
      with (text ++ tagged name content ++ (renderTags name pieces ++ post))%string
      in * by (rewrite !sapp_assoc; reflexivity).
    rewrite (findTag_plain name text content _ Htext Hcontent).
    f_equal. apply IH; auto.
    assert (0 < String.length (tagged name content))
      by (unfold tagged; cbn [append String.length]; lia).
    cbn [renderTags] in Hfuel.
    rewrite !sapp_length in Hfuel. rewrite sapp_length. lia.
Qed.

(** X3: a reply that puts commands in [ExecCommand] tags, one after the
    other with plain text around them, is read back as these commands,
    trimmed and in their order; the same holds for keys in [TmuxSendKeys]
    tags. *)
Theorem tagged_commands_round_trip
  (json : string -> bool) (pieces : list (string * string)) (post : string) :
  plainPieces pieces = true -> freeOf "<" post = true ->
  ExecCommand (fst (parseAIResponse json (renderTags "ExecCommand" pieces ++ post)%string))
  = map (fun piece => TrimSpace (snd piece)) pieces
  /\ SendKeys (fst (parseAIResponse json (renderTags "TmuxSendKeys" pieces ++ post)%string))
     = map (fun piece => TrimSpace (snd piece)) pieces.
Proof.
  intros Hplain Hpost. unfold parseAIResponse. cbn [fst ExecCommand SendKeys].
  unfold FindAllStringSubmatch, execCommandRegex, sendKeysRegex.
  rewrite !findAllTags_plain by (auto; lia).
  rewrite map_map. split; reflexivity.
Qed.

Lemma tagged_commands_round_trip_witness :
  ExecCommand
    (fst (parseAIResponse Sample.emptyObjectOnly
            (renderTags "ExecCommand" Sample2.twoCommands ++ ".")%string))
  = ["ls -la"; "pwd"].
Proof.
  destruct (tagged_commands_round_trip Sample.emptyObjectOnly
              Sample2.twoCommands "." eq_refl eq_refl) as [Hcommands _].
  rewrite Hcommands. vm_compute. reflexivity.
Defined.

(** X4: of several [PasteMultilineContent] tags, and of several
    [BrowserAction] tags, only the first counts: after plain text, a tag with
    plain content gives that content, trimmed, whatever follows it; for the
    browser action, if the decoder accepts it, and nothing otherwise. *)
Theorem first_tag_wins
  (json : string -> bool) (pre content post : string) :
  freeOf "<" pre = true -> freeOf "<" content = true ->
  PasteMultilineContent
    (fst (parseAIResponse json
            (pre ++ tagged "PasteMultilineContent" content ++ post)%string))
  = TrimSpace content
  /\ BrowserAction
       (fst (parseAIResponse json (pre ++ tagged "BrowserAction" content ++ post)%string))
     = (if json (TrimSpace content) then TrimSpace content else "").
Proof.
  intros Hpre Hcontent. unfold parseAIResponse.
  cbn [fst PasteMultilineContent BrowserAction].
  unfold FindStringSubmatch, pasteRegex, browserActionRegex.
  rewrite !findTag_plain by assumption. split; reflexivity.
Qed.

Lemma first_tag_wins_witness :
  PasteMultilineContent
    (fst (parseAIResponse Sample.emptyObjectOnly
            ("Paste: " ++ tagged "PasteMultilineContent" " first "
                       ++ tagged "PasteMultilineContent" "second")%string))
  = "first".
Proof.
  destruct (first_tag_wins Sample.emptyObjectOnly "Paste: " " first "
              (tagged "PasteMultilineContent" "second") eq_refl eq_refl)
    as [Hpaste _].
  rewrite Hpaste. vm_compute. reflexivity.
Defined.

(** X18: an [ExecCommand] tag always counts as an action, blank or not: after
    plain text, a tag with plain content puts that content, trimmed, at the
    head of the commands, so the reply carries an action and the validator
    never answers that a tag is missing. *)
Theorem command_tag_always_counts
  (json : string -> bool) (watchMode : bool) (pre content post : string) :
  freeOf "<" pre = true -> freeOf "<" content = true ->
  hd_error (ExecCommand (fst (parseAIResponse json
              (pre ++ tagged "ExecCommand" content ++ post)%string)))
  = Some (TrimSpace content)
  /\ 0 < actionKinds (fst (parseAIResponse json
              (pre ++ tagged "ExecCommand" content ++ post)%string))
  /\ aiFollowedGuidelines watchMode (fst (parseAIResponse json
              (pre ++ tagged "ExecCommand" content ++ post)%string))
     <> (atLeastOneTag, false).
Proof.
  intros Hpre Hcontent.
  assert (Hhead : exists rest,
            ExecCommand (fst (parseAIResponse json
              (pre ++ tagged "ExecCommand" content ++ post)%string))
            = TrimSpace content :: rest).
  { unfold parseAIResponse. cbn [fst ExecCommand].
    unfold FindAllStringSubmatch, execCommandRegex. cbn [findAllTags].
    rewrite (findTag_plain "ExecCommand" pre content post Hpre Hcontent).
    cbn [map]. eexists. reflexivity. }
  destruct Hhead as (rest & Hhead).
  set (r := fst (parseAIResponse json _)) in *. clearbody r.
  destruct r as [msg keys cmds paste browser ra busy waiting nc].
  cbn [ExecCommand] in Hhead. subst cmds.
  split; [reflexivity|]. split.
  - unfold actionKinds. cbn [ExecCommand nonEmptyList filter List.length]. lia.
  - unfold aiFollowedGuidelines;
      cbn [RequestAccomplished ExecPaneSeemsBusy WaitingForUserResponse NoComment
           ExecCommand SendKeys PasteMultilineContent BrowserAction];
      destruct ra, busy, waiting, nc, watchMode;
      destruct keys as [|k1 keys], paste as [|p1 paste], browser as [|b1 browser];
      cbn; intros E; inversion E.
Qed.

Lemma command_tag_always_counts_witness :
  hd_error (ExecCommand (fst (parseAIResponse Sample.emptyObjectOnly
              ("Run " ++ tagged "ExecCommand" "   " ++ " now")%string)))
  = Some "".
Proof.
  destruct (command_tag_always_counts Sample.emptyObjectOnly false
              "Run " "   " " now" eq_refl eq_refl) as [Hhead _].
  rewrite Hhead. vm_compute. reflexivity.
Defined.

(** ** The watch loop *)

(** X5: the watch loop returns only with the status cleared or with watch
    mode switched off. *)
Theorem watch_loop_exit (D : Deps) (depth rounds : nat) (desc : string) (s s' : St) :
  startWatchMode D depth rounds desc s = Some s' ->
  Status (fst s') = "" \/ WatchMode (fst s') = false.
Proof.
  revert desc s. induction rounds as [|rounds IH]; intros desc s; [discriminate|].
  cbn [startWatchMode].
  destruct (idle (fst s)) eqn:Hidle.
  { intros E; injection E as <-. left. apply String.eqb_eq. exact Hidle. }
  destruct (ProcessUserMessage D depth desc _) as [[accomplished s1]|]; [|discriminate].
  destruct (negb (idle (fst _)) && WatchMode (fst _)) eqn:Hgo; [apply IH|].
  intros E; injection E as <-.
  apply andb_false_iff in Hgo. destruct Hgo as [Hgo|Hgo]; [left|right; exact Hgo].
  apply negb_false_iff in Hgo. apply String.eqb_eq. exact Hgo.
Qed.


Lemma watch_round_returns :
  startWatchMode Sample.deps 1 1 "watch the build" Sample2.watching <> None.
Proof. vm_compute. discriminate. Qed.

Lemma watch_loop_exit_witness :
  match startWatchMode Sample.deps 1 1 "watch the build" Sample2.watching with
  | Some s' => Status (fst s') = "" \/ WatchMode (fst s') = false
  | None => False
  end.
Proof.
  pose proof watch_round_returns as Hreturns.
  pose proof (watch_loop_exit Sample.deps 1 1 "watch the build" Sample2.watching)
    as Hexit.
  destruct (startWatchMode _ _ _ _ _) as [s'|].
  - exact (Hexit s' eq_refl).
  - exact (Hreturns eq_refl).
Defined.


(** ** What every step of a turn respects

    A relation between the state before and the state after that holds
    across the elementary steps (a blocking call, a line on the console, a
    directive in the pane log, an update of the status or of the messages)
    holds across the blocks of a turn and across [ProcessUserMessage]. *)

Section Frame.

Variable D : Deps.

(** A relation between the state before and the state after that every
    step of a turn respects. *)
Variable R : St -> St -> Prop.

Hypothesis R_refl : forall s, R s s.
Hypothesis R_trans : forall s1 s2 s3, R s1 s2 -> R s2 s3 -> R s1 s3.
Hypothesis R_blocked : forall s, R s (blocked s).
Hypothesis R_console : forall m w v, R (m, w) (m, setConsole v w).
Hypothesis R_paneLog : forall m w v, R (m, w) (m, setPaneLog v w).
Hypothesis R_chatLog : forall m w v, R (m, w) (m, setChatLog v w).
Hypothesis R_debugLog : forall m w v, R (m, w) (m, setDebugLog v w).
Hypothesis R_status : forall m w v, R (m, w) (setStatus v m, w).
Hypothesis R_messages : forall m w v, R (m, w) (setMessages v m, w).
Hypothesis R_lastLine : forall m w v, R (m, w) (setLastLine v m, w).
Hypothesis R_execHistory : forall m w v, R (m, w) (setExecHistory v m, w).
Hypothesis R_wait : forall command s,
  IsPrepared (ExecPane (fst s)) = true -> R s (snd (ExecWaitCapture D command s)).

Lemma Println_frame text s : R s (Println text s).
Proof. destruct s. apply R_console. Qed.

Lemma send_frame pane command enter s : R s (TmuxSendCommandToPane pane command enter s).
Proof. destruct s. apply R_paneLog. Qed.

Lemma clearStatus_frame s : R s (clearStatus s).
Proof. destruct s. apply R_status. Qed.

Lemma Countdown_frame n s : R s (Countdown n s).
Proof.
  unfold Countdown. induction n as [|n IH]; [apply R_refl|].
  cbn [Nat.iter]. eapply R_trans; [exact IH|apply R_blocked].
Qed.

Lemma pollPane_frame re attempts :
  forall s, R s (snd (ExecPaneOps.pollPane re attempts s)).
Proof.
  induction attempts as [|attempts IH]; intros s;
    cbn [ExecPaneOps.pollPane TmuxCapturePane];
    destruct (captureAt (snd s) (clock (snd s))) as [content|err];
    cbn [snd fst]; try apply R_blocked;
    assert (Hs : R s (setLastLine (ExecPaneOps.lastLine content) (fst (blocked s)),
                      snd (blocked s)))
      by (pose proof (R_blocked s) as B; destruct (blocked s) as [m w];
          eapply R_trans; [exact B|apply R_lastLine]).
  - destruct (_ || _); exact Hs.
  - destruct (_ || _); [exact Hs|].
    eapply R_trans; [exact Hs|]. eapply R_trans; [apply R_blocked|apply IH].
Qed.

(** The poller respects what its steps respect, prepared pane or not. *)
Lemma ExecWaitCapture_frame command s : R s (snd (ExecWaitCapture D command s)).
Proof.
  unfold ExecWaitCapture, ExecPaneOps.ExecWaitCapture.
  pose proof (pollPane_frame (promptRegex D) (maxPollAttempts D)
                (TmuxSendCommandToPane (Id (ExecPane (fst s))) command true s)) as P.
  destruct (ExecPaneOps.pollPane _ _ _) as [[content|err] s1]; cbn [snd] in *.
  - assert (Hs : R s (ExecPaneOps.parseExecPaneCommandHistoryWithContent
                        (promptRegex D) content s1)).
    { eapply R_trans; [apply send_frame|].
      eapply R_trans; [exact P|]. destruct s1. apply R_execHistory. }
    destruct (List.rev _) as [|cmd rest]; [exact Hs|].
    destruct (String.eqb _ _); exact Hs.
  - eapply R_trans; [apply send_frame|exact P].
Qed.

Lemma debugIfEnabled_frame sending note s : R s (debugIfEnabled sending note s).
Proof.
  unfold debugIfEnabled. destruct (Debug _); [|apply R_refl].
  destruct s. apply R_debugLog.
Qed.

Lemma appendMessages_frame cur reply s : R s (appendMessages cur reply s).
Proof. destruct s. apply R_messages. Qed.

Lemma squashIfNeeded_frame s : R s (squashIfNeeded D s).
Proof.
  unfold squashIfNeeded. destruct (needSquash D (fst s)); [|apply R_refl].
  cbv zeta.
  eapply R_trans; [apply (Println_frame "Exceeded context size, squashing history..." s)|].
  destruct (Println _ s) as [m w]. cbn [fst snd].
  eapply R_trans; [apply R_messages|apply R_blocked].
Qed.

Lemma askModel_frame message s : R s (snd (askModel D message s)).
Proof.
  unfold askModel, getTmuxPanesInXml, GetResponseFromChatMessages.
  pose proof (R_blocked s) as H1.
  destruct (blocked s) as [m w]. cbn [fst snd].
  eapply R_trans; [exact H1|].
  eapply R_trans; [apply R_chatLog|apply R_blocked].
Qed.

(** Run a command: wait and capture on a prepared pane, send and sleep
    otherwise. *)
Lemma runCommand_frame command s :
  R s (if IsPrepared (ExecPane (fst s)) then snd (ExecWaitCapture D command s)
       else Sleep (TmuxSendCommandToPane (Id (ExecPane (fst s))) command true s)).
Proof.
  destruct (IsPrepared _) eqn:Hp; [apply R_wait, Hp|].
  eapply R_trans; [apply send_frame|apply R_blocked].
Qed.

Lemma execCommands_frame commands : forall s, R s (snd (execCommands D commands s)).
Proof.
  induction commands as [|c commands IH]; intros s; [apply R_refl|].
  cbn [execCommands].
  set (s0 := Println (HighlightCode D "sh" c) s).
  assert (H0 : R s s0) by apply Println_frame.
  destruct (GetExecConfirm D (fst s0)).
  - unfold confirmedToExec.
    destruct (confirmAt (snd s0) (clock (snd s0))) as [isSafe command].
    cbn [fst snd].
    assert (H1 : R s (blocked s0)) by (eapply R_trans; [exact H0|apply R_blocked]).
    destruct isSafe; cbn [snd].
    + eapply R_trans; [|apply IH]. eapply R_trans; [exact H1|].
      eapply R_trans; [apply Println_frame|apply runCommand_frame].
    + eapply R_trans; [exact H1|apply clearStatus_frame].
  - eapply R_trans; [|apply IH]. eapply R_trans; [exact H0|].
    eapply R_trans; [apply Println_frame|apply runCommand_frame].
Qed.

Lemma sendEachKey_frame keys : forall s, R s (sendEachKey keys s).
Proof.
  induction keys as [|k keys IH]; intros s; [apply R_refl|].
  cbn [sendEachKey]. eapply R_trans; [|apply IH].
  eapply R_trans; [apply Println_frame|].
  eapply R_trans; [apply send_frame|apply R_blocked].
Qed.

Lemma processSendKeys_frame r s : R s (snd (processSendKeys D r s)).
Proof.
  unfold processSendKeys.
  destruct (0 <? _); [|apply R_refl].
  destruct (idle _); [apply R_refl|].
  set (s0 := Println _ s). assert (H0 : R s s0) by apply Println_frame.
  destruct (GetSendKeysConfirm D (fst s0)).
  - unfold confirmedToExec. destruct (confirmAt _ _) as [ok command]. cbn [fst snd].
    assert (H1 : R s (blocked s0)) by (eapply R_trans; [exact H0|apply R_blocked]).
    destruct ok; cbn [snd].
    + eapply R_trans; [exact H1|apply sendEachKey_frame].
    + eapply R_trans; [exact H1|apply clearStatus_frame].
  - cbn [snd]. eapply R_trans; [exact H0|apply sendEachKey_frame].
Qed.

Lemma processBrowserAction_frame r s : R s (snd (processBrowserAction D r s)).
Proof.
  unfold processBrowserAction.
  destruct (negb _); [|apply R_refl].
  set (s0 := Println _ s). assert (H0 : R s s0) by apply Println_frame.
  assert (Hact : forall s1, R s s1 ->
            R s (snd (match executeBrowserAction (BrowserAction r)
                              (Println "Performing browser action..." s1) with
                      | (inr err, s2) =>
                          (false, clearStatus (Println ("Browser action failed: " ++ err) s2))
                      | (inl result, s2) =>
                          (true, Println ("Browser action result: " ++ result) s2)
                      end))).
  { intros s1 H1. unfold executeBrowserAction.
    destruct (browserAt _ _) as [result|err]; cbn [snd].
    - eapply R_trans; [exact H1|]. eapply R_trans; [apply Println_frame|].
      eapply R_trans; [apply R_blocked|apply Println_frame].
    - eapply R_trans; [exact H1|]. eapply R_trans; [apply Println_frame|].
      eapply R_trans; [apply R_blocked|].
      eapply R_trans; [apply Println_frame|apply clearStatus_frame]. }
  destruct (GetExecConfirm D (fst s0)).
  - unfold confirmedToExec at 1. destruct (confirmAt _ _) as [ok command]. cbn [fst].
    destruct ok.
    + apply Hact. eapply R_trans; [exact H0|apply R_blocked].
    + cbn [snd]. eapply R_trans; [exact H0|].
      eapply R_trans; [apply R_blocked|apply clearStatus_frame].
  - apply Hact. exact H0.
Qed.

Lemma processPaste_frame r s : R s (snd (processPaste D r s)).
Proof.
  unfold processPaste.
  destruct (negb _); [|apply R_refl].
  set (s0 := Println _ s). assert (H0 : R s s0) by apply Println_frame.
  destruct (GetPasteMultilineConfirm D (fst s0)).
  - unfold confirmedToExec. destruct (confirmAt _ _) as [ok command]. cbn [fst].
    destruct ok; cbn [snd].
    + eapply R_trans; [exact H0|]. eapply R_trans; [apply R_blocked|].
      eapply R_trans; [apply Println_frame|].
      eapply R_trans; [apply send_frame|apply R_blocked].
    + eapply R_trans; [exact H0|].
      eapply R_trans; [apply R_blocked|apply clearStatus_frame].
  - cbn [snd]. eapply R_trans; [exact H0|].
    eapply R_trans; [apply Println_frame|].
    eapply R_trans; [apply send_frame|apply R_blocked].
Qed.


Lemma actions_frame r s :
  R s (snd (processBrowserAction D r
              (snd (processSendKeys D r (snd (execCommands D (ExecCommand r) s)))))).
Proof.
  eapply R_trans; [apply execCommands_frame|].
  eapply R_trans; [apply processSendKeys_frame|apply processBrowserAction_frame].
Qed.


Lemma accepted_frame r cur reply s : R s (accepted D r cur reply s).
Proof.
  unfold accepted.
  assert (Pp : R s (if negb (String.eqb (Message r) "")
                    then Println (Cosmetics D (Message r)) s else s)).
  { destruct (negb _); [apply Println_frame|apply R_refl]. }
  destruct (_ || _); [exact Pp|].
  eapply R_trans; [exact Pp|apply appendMessages_frame].
Qed.



End Frame.

(** ** The history across a call *)

Section Growth.

Variable D : Deps.

Lemma exchanges_app n k : exchanges (n + k) = exchanges n ++ exchanges k.
Proof. induction n as [|n IH]; cbn; [reflexivity|rewrite IH; reflexivity]. Qed.

Lemma grown_refl s : grownByExchanges s s.
Proof. exists 0, []. rewrite app_nil_r. split; reflexivity. Qed.

Lemma grown_same s s' : sameMessages s s' -> grownByExchanges s s'.
Proof. intros E. exists 0, []. rewrite app_nil_r. split; [exact E|reflexivity]. Qed.

Lemma grown_trans s1 s2 s3 :
  grownByExchanges s1 s2 -> grownByExchanges s2 s3 -> grownByExchanges s1 s3.
Proof.
  intros (n & a & Ha & Hn) (k & b & Hb & Hk).
  exists (n + k), (a ++ b). split.
  - rewrite Hb, Ha, app_assoc. reflexivity.
  - rewrite map_app, Hn, Hk, exchanges_app. reflexivity.
Qed.

Lemma grown_append cur response stamp s :
  FromUser cur = true ->
  grownByExchanges s (appendMessages cur (mkChatMessage response false stamp) s).
Proof.
  intros Hcur. exists 1, [cur; mkChatMessage response false stamp].
  split; [reflexivity|]. cbn. rewrite Hcur. reflexivity.
Qed.

Lemma same_refl s : sameMessages s s.
Proof. reflexivity. Qed.

Lemma same_trans s1 s2 s3 : sameMessages s1 s2 -> sameMessages s2 s3 -> sameMessages s1 s3.
Proof. unfold sameMessages. congruence. Qed.

Lemma blocked_same s : sameMessages s (blocked s).
Proof.
  destruct s as [m w]. unfold sameMessages. cbn.
  destruct (interruptAt w (clock w)); reflexivity.
Qed.

(** The steps that leave the messages alone: all but the squash and the
    append. *)
Ltac same_steps :=
  first [ exact same_refl | exact same_trans | exact blocked_same
        | intros; reflexivity ].

Lemma ExecWaitCapture_same command s :
  sameMessages s (snd (ExecWaitCapture D command s)).
Proof. apply ExecWaitCapture_frame; same_steps. Qed.

Ltac same_blocks :=
  first [ same_steps | intros; apply ExecWaitCapture_same ].

Lemma Println_same text s : sameMessages s (Println text s).
Proof. destruct s; reflexivity. Qed.

Lemma clearStatus_same s : sameMessages s (clearStatus s).
Proof. destruct s; reflexivity. Qed.

Lemma Countdown_same n s : sameMessages s (Countdown n s).
Proof. apply Countdown_frame; same_steps. Qed.

Lemma execCommands_same commands s :
  sameMessages s (snd (execCommands D commands s)).
Proof. apply execCommands_frame; same_blocks. Qed.

Lemma processSendKeys_same r s : sameMessages s (snd (processSendKeys D r s)).
Proof. apply processSendKeys_frame; same_steps. Qed.

Lemma processBrowserAction_same r s : sameMessages s (snd (processBrowserAction D r s)).
Proof. apply processBrowserAction_frame; same_steps. Qed.

Lemma processPaste_same r s : sameMessages s (snd (processPaste D r s)).
Proof. apply processPaste_frame; same_steps. Qed.

Lemma debugIfEnabled_same sending note s : sameMessages s (debugIfEnabled sending note s).
Proof. apply debugIfEnabled_frame; same_steps. Qed.

Lemma askModel_same message s :
  sameMessages s (snd (askModel D message s))
  /\ FromUser (snd (fst (fst (askModel D message s)))) = true.
Proof.
  split; [apply askModel_frame; same_steps|].
  destruct s as [m w]. reflexivity.
Qed.

Lemma same_grown s1 s2 s3 :
  sameMessages s1 s2 -> grownByExchanges s2 s3 -> grownByExchanges s1 s3.
Proof. intros H. apply grown_trans, grown_same, H. Qed.

Lemma finishTurn_grows self r s b s' :
  growsOnReturn self ->
  finishTurn D self r s = Some (b, s') -> grownByExchanges s s'.
Proof.
  intros Hself. unfold finishTurn.
  pose proof (processPaste_same r s) as P.
  destruct (processPaste D r s) as [[] s1]; cbn [snd] in P.
  2:{ intros E; injection E as <- <-. apply grown_same, P. }
  destruct (RequestAccomplished r).
  { intros E; injection E as <- <-. apply grown_same.
    eapply same_trans; [exact P|apply clearStatus_same]. }
  destruct (WaitingForUserResponse r).
  { intros E; injection E as <- <-. apply grown_same.
    eapply same_trans; [exact P|]. destruct s1; reflexivity. }
  destruct (NoComment r).
  { intros E; injection E as <- <-. apply grown_same, P. }
  destruct (negb (WatchMode (fst s1))).
  2:{ intros E; injection E as <- <-. apply grown_same, P. }
  destruct (self updateProbe s1) as [[[] t]|] eqn:Eself; try discriminate;
    intros E; injection E as <- <-;
    (eapply same_grown; [exact P|exact (Hself _ _ _ _ Eself)]).
Qed.

Lemma actOn_grows self r s b s' :
  growsOnReturn self ->
  actOn D self r s = Some (b, s') -> grownByExchanges s s'.
Proof.
  intros Hself. unfold actOn.
  pose proof (execCommands_same (ExecCommand r) s) as P1.
  destruct (execCommands D (ExecCommand r) s) as [[] s1]; cbn [snd] in P1.
  2:{ intros E; injection E as <- <-. apply grown_same, P1. }
  pose proof (processSendKeys_same r s1) as P2.
  destruct (processSendKeys D r s1) as [[] s2]; cbn [snd] in P2.
  2:{ intros E; injection E as <- <-. apply grown_same.
      eapply same_trans; [exact P1|exact P2]. }
  pose proof (processBrowserAction_same r s2) as P3.
  destruct (processBrowserAction D r s2) as [[] s3]; cbn [snd] in P3.
  2:{ intros E; injection E as <- <-. apply grown_same.
      eapply same_trans; [exact P1|]. eapply same_trans; [exact P2|exact P3]. }
  assert (P : sameMessages s s3).
  { eapply same_trans; [exact P1|]. eapply same_trans; [exact P2|exact P3]. }
  destruct (ExecPaneSeemsBusy r).
  2:{ intros E. eapply same_grown; [exact P|].
      exact (finishTurn_grows _ _ _ _ _ Hself E). }
  pose proof (Countdown_same (GetWaitInterval D (fst s3)) s3) as PC.
  destruct (self busyProbe _) as [[[] t]|] eqn:Eself; try discriminate.
  - intros E; injection E as <- <-.
    eapply same_grown; [exact P|]. eapply same_grown; [exact PC|].
    exact (Hself _ _ _ _ Eself).
  - intros E.
    eapply same_grown; [exact P|]. eapply same_grown; [exact PC|].
    eapply grown_trans; [exact (Hself _ _ _ _ Eself)|].
    exact (finishTurn_grows _ _ _ _ _ Hself E).
Qed.

Lemma turn_grows self message s b s' :
  (forall m, needSquash D m = false) ->
  growsOnReturn self ->
  turn D self message s = Some (b, s') -> grownByExchanges s s'.
Proof.
  intros Hsquash Hself. unfold turn, squashIfNeeded. rewrite Hsquash.
  destruct (idle (fst s)).
  { intros E; injection E as <- <-. apply grown_refl. }
  destruct (askModel_same message s) as (PA & Hcur).
  destruct (askModel D message s) as [[[sending cur] outcome] s1].
  cbn [fst snd] in PA, Hcur.
  destruct outcome as [response|err|err].
  - destruct (idle (fst s1)).
    { intros E; injection E as <- <-. apply grown_same, PA. }
    unfold parseAIResponse at 1.
    set (r := fst (parseAIResponse (jsonUnmarshalMap D) response)).
    change (mkAIResponse response _ _ _ _ _ _ _ _) with r.
    pose proof (debugIfEnabled_same sending response s1) as PD.
    set (s2 := debugIfEnabled sending response s1) in *.
    destruct (aiFollowedGuidelines _ r) as [guidelineError []].
    + intros E. eapply same_grown; [exact PA|]. eapply same_grown; [exact PD|].
      assert (G : grownByExchanges s2
                    (accepted D r cur (responseMessage response s2) s2)).
      { unfold accepted.
        assert (Pp : sameMessages s2 (if negb (String.eqb (Message r) "")
                                      then Println (Cosmetics D (Message r)) s2 else s2)).
        { destruct (negb _); [apply Println_same|reflexivity]. }
        destruct (_ || _); [apply grown_same, Pp|].
        eapply same_grown; [exact Pp|]. apply grown_append, Hcur. }
      eapply grown_trans; [exact G|]. exact (actOn_grows _ _ _ _ _ Hself E).
    + intros E. eapply same_grown; [exact PA|]. eapply same_grown; [exact PD|].
      eapply grown_trans; [|exact (Hself _ _ _ _ E)].
      eapply same_grown; [apply Println_same|]. apply grown_append, Hcur.
  - intros E; injection E as <- <-. apply grown_same.
    eapply same_trans; [exact PA|]. eapply same_trans; [apply clearStatus_same|].
    eapply same_trans; [apply Println_same|apply debugIfEnabled_same].
  - intros E; injection E as <- <-. apply grown_same.
    eapply same_trans; [exact PA|apply clearStatus_same].
Qed.

(** X6: when the history is not squashed, a call of [ProcessUserMessage]
    that returns leaves the history it found in place and adds whole
    exchanges after it, each the message of a turn followed by the reply of
    the model; nothing is removed, reordered or inserted. *)
Theorem history_grows_by_exchanges (fuel : nat) (message : string) (s : St)
  (b : bool) (s' : St) :
  (forall m, needSquash D m = false) ->
  ProcessUserMessage D fuel message s = Some (b, s') ->
  grownByExchanges s s'.
Proof.
  intros Hsquash. revert message s b s'.
  induction fuel as [|fuel IH]; intros message s b s'; [discriminate|].
  cbn [ProcessUserMessage]. apply turn_grows; [exact Hsquash|].
  intros msg t c t'. apply IH.
Qed.

End Growth.

Lemma corrected_run_returns :
  ProcessUserMessage Sample.deps 2 "list the files"
    (Sample.start Sample.chatPlainThenAccomplished) <> None.
Proof. vm_compute. discriminate. Qed.

Lemma history_grows_by_exchanges_witness :
  match ProcessUserMessage Sample.deps 2 "list the files"
          (Sample.start Sample.chatPlainThenAccomplished) with
  | Some (_, s') => grownByExchanges (Sample.start Sample.chatPlainThenAccomplished) s'
  | None => False
  end.
Proof.
  pose proof corrected_run_returns as Hreturns.
  pose proof (history_grows_by_exchanges Sample.deps 2 "list the files"
                (Sample.start Sample.chatPlainThenAccomplished)) as Hgrows.
  destruct (ProcessUserMessage _ _ _ _) as [[b s']|].
  - exact (Hgrows b s' (fun _ => eq_refl) eq_refl).
  - exact (Hreturns eq_refl).
Defined.

(** ** The pane that is not prepared *)

Section Unprepared.

Variable D : Deps.






End Unprepared.


(** ** A turn in watch mode *)

Section Watch.

Variable D : Deps.

Lemma calm_refl s : calm s s.
Proof. intros Hn. split; [exact Hn|split; reflexivity]. Qed.

Lemma calm_trans s1 s2 s3 : calm s1 s2 -> calm s2 s3 -> calm s1 s3.
Proof.
  intros H12 H23 Hn. destruct (H12 Hn) as (Hn2 & Hw2 & Hc2).
  destruct (H23 Hn2) as (Hn3 & Hw3 & Hc3).
  split; [exact Hn3|]. split; congruence.
Qed.

Lemma calm_blocked s : calm s (blocked s).
Proof.
  destruct s as [m w]. intros Hn. cbn [snd] in Hn. cbn.
  rewrite (Hn (clock w)). split; [exact Hn|split; reflexivity].
Qed.

Ltac calm_steps :=
  first [ exact calm_refl | exact calm_trans | exact calm_blocked
        | let H := fresh in intros; intros H; split; [exact H|split; reflexivity] ].

Lemma calm_wait command s : calm s (snd (ExecWaitCapture D command s)).
Proof. apply ExecWaitCapture_frame; calm_steps. Qed.

Ltac calm_blocks := first [ calm_steps | intros; apply calm_wait ].

(** The chat service is asked once the panes are captured. *)
Lemma askModel_outcome message s :
  snd (fst (askModel D message s)) = chatAt (snd s) (S (clock (snd s))).
Proof. destruct s as [m w]. reflexivity. Qed.

Lemma finishTurn_watch r s :
  WatchMode (fst s) = true -> noInterrupts (snd s) ->
  exists b s', forall self, finishTurn D self r s = Some (b, s').
Proof.
  intros Hw Hn. unfold finishTurn.
  assert (P : calm s (snd (processPaste D r s)))
    by (apply processPaste_frame; calm_steps).
  destruct (processPaste D r s) as [[] s1]; cbn [snd] in P.
  2:{ eexists _, _. intros self. reflexivity. }
  destruct (P Hn) as (_ & Hw1 & _). rewrite Hw1, Hw. cbn [negb].
  destruct (RequestAccomplished r); [eexists _, _; intros self; reflexivity|].
  destruct (WaitingForUserResponse r); [eexists _, _; intros self; reflexivity|].
  destruct (NoComment r); eexists _, _; intros self; reflexivity.
Qed.

Lemma actOn_watch r s :
  ExecPaneSeemsBusy r = false ->
  WatchMode (fst s) = true -> noInterrupts (snd s) ->
  exists b s', forall self, actOn D self r s = Some (b, s').
Proof.
  intros Hbusy Hw Hn. unfold actOn. rewrite Hbusy.
  assert (P : calm s (snd (processBrowserAction D r
                 (snd (processSendKeys D r (snd (execCommands D (ExecCommand r) s)))))))
    by (apply actions_frame; calm_blocks).
  destruct (execCommands D (ExecCommand r) s) as [[] s1]; cbn [snd] in P.
  2:{ eexists _, _. intros self. reflexivity. }
  destruct (processSendKeys D r s1) as [[] s2]; cbn [snd] in P.
  2:{ eexists _, _. intros self. reflexivity. }
  destruct (processBrowserAction D r s2) as [[] s3]; cbn [snd] in P.
  2:{ eexists _, _. intros self. reflexivity. }
  destruct (P Hn) as (Hn3 & Hw3 & _).
  apply finishTurn_watch; [rewrite Hw3; exact Hw|exact Hn3].
Qed.

Lemma turn_watch message s :
  WatchMode (fst s) = true -> noInterrupts (snd s) -> steadyModel D (snd s) ->
  exists b s', forall self, turn D self message s = Some (b, s').
Proof.
  intros Hw Hn Hsteady. unfold turn.
  assert (P0 : calm s (squashIfNeeded D s))
    by (apply squashIfNeeded_frame; calm_steps).
  destruct (P0 Hn) as (Hn0 & Hw0 & Hc0).
  set (s0 := squashIfNeeded D s) in *.
  destruct (idle (fst s0)); [eexists _, _; intros self; reflexivity|].
  assert (PA : calm s0 (snd (askModel D message s0)))
    by (apply askModel_frame; calm_steps).
  pose proof (askModel_outcome message s0) as Hout.
  destruct (askModel D message s0) as [[[sending cur] outcome] s1].
  cbn [fst snd] in PA, Hout.
  destruct (PA Hn0) as (Hn1 & Hw1 & _).
  destruct outcome as [response|err|err];
    [|eexists _, _; intros self; reflexivity ..].
  destruct (idle (fst s1)); [eexists _, _; intros self; reflexivity|].
  rewrite Hc0 in Hout. symmetry in Hout.
  destruct (Hsteady _ _ Hout) as (Hbusy & Hvalid).
  unfold parseAIResponse at 1.
  set (r := fst (parseAIResponse (jsonUnmarshalMap D) response)) in *.
  change (mkAIResponse response _ _ _ _ _ _ _ _) with r.
  assert (PD : calm s1 (debugIfEnabled sending response s1))
    by (apply debugIfEnabled_frame; calm_steps).
  destruct (PD Hn1) as (Hn2 & Hw2 & _).
  set (s2 := debugIfEnabled sending response s1) in *.
  rewrite Hw2, Hw1, Hw0, Hw.
  destruct (aiFollowedGuidelines true r) as [guidelineError ok].
  cbn [snd] in Hvalid. subst ok.
  assert (PC : calm s2 (accepted D r cur (responseMessage response s2) s2))
    by (apply accepted_frame; calm_steps).
  destruct (PC Hn2) as (Hn3 & Hw3 & _).
  apply actOn_watch; [exact Hbusy| |exact Hn3].
  transitivity (WatchMode (fst s2)); [exact Hw3|].
  rewrite Hw2, Hw1, Hw0. exact Hw.
Qed.

(** X17: in watch mode, without interrupts, and with a model that never
    reports the pane busy and always follows the guidelines, a call of
    [ProcessUserMessage] is a single turn: it returns, and with the same
    result whatever depth of nested turns is allowed. *)
Theorem watch_turn_is_single (message : string) (s : St) :
  WatchMode (fst s) = true -> noInterrupts (snd s) -> steadyModel D (snd s) ->
  exists b s', forall fuel, ProcessUserMessage D (S fuel) message s = Some (b, s').
Proof.
  intros Hw Hn Hsteady.
  destruct (turn_watch message s Hw Hn Hsteady) as (b & s' & Hturn).
  exists b, s'. intros fuel. cbn [ProcessUserMessage]. apply Hturn.
Qed.

End Watch.

Lemma watch_turn_is_single_witness :
  exists b s', forall fuel,
    ProcessUserMessage Sample.deps (S fuel) "watch the build" Sample2.watching
    = Some (b, s').
Proof.
  apply (watch_turn_is_single Sample.deps "watch the build" Sample2.watching).
  - reflexivity.
  - intros tick. reflexivity.
  - intros tick response Hreply. injection Hreply as <-.
    split; vm_compute; reflexivity.
Defined.

(** ** Cancellation during the chat call *)

Section Cancellation.

Variable D : Deps.

Lemma askModel_interrupted message s :
  interruptAt (snd s) (S (clock (snd s))) = true ->
  Status (fst (snd (askModel D message s))) = ""
  /\ WatchMode (fst (snd (askModel D message s))) = false
  /\ Messages (fst (snd (askModel D message s))) = Messages (fst s)
  /\ paneLog (snd (snd (askModel D message s))) = paneLog (snd s)
  /\ ExecHistory (fst (snd (askModel D message s))) = ExecHistory (fst s).
Proof.
  destruct s as [m w]. cbn [snd]. intros Hint.
  unfold askModel, getTmuxPanesInXml, GetResponseFromChatMessages. cbn.
  rewrite Hint. destruct (interruptAt w (clock w)); repeat split.
Qed.

(** X20: when the interrupt lands while the chat service is being asked,
    the turn returns [false] whatever the service answers: a reply that
    arrives is dropped, nothing is appended to the history, nothing is sent
    to the pane, and the session is left idle with watch mode off. *)
Theorem interrupted_chat_call_drops_reply (fuel : nat) (message : string) (s : St) :
  idle (fst (squashIfNeeded D s)) = false ->
  interruptAt (snd (squashIfNeeded D s)) (S (clock (snd (squashIfNeeded D s)))) = true ->
  exists s',
    ProcessUserMessage D (S fuel) message s = Some (false, s')
    /\ Status (fst s') = ""
    /\ WatchMode (fst s') = false
    /\ Messages (fst s') = Messages (fst (squashIfNeeded D s))
    /\ paneLog (snd s') = paneLog (snd s)
    /\ ExecHistory (fst s') = ExecHistory (fst s).
Proof.
  intros Hrun Hint. cbn [ProcessUserMessage]. unfold turn. rewrite Hrun.
  pose proof (squashIfNeeded_keeps D s) as (Hlog0 & Hhist0 & _).
  destruct (askModel_interrupted message _ Hint) as (Hst & Hwm & Hmsg & Hlog & Hhist).
  rewrite Hlog0 in Hlog. rewrite Hhist0 in Hhist.
  destruct (askModel D message (squashIfNeeded D s)) as [[[sending cur] outcome] s1].
  cbn [fst snd] in *.
  destruct outcome as [response|err|err].
  - assert (Hidle : idle (fst s1) = true) by (unfold idle; rewrite Hst; reflexivity).
    rewrite Hidle. exists s1. repeat split; assumption.
  - eexists. split; [reflexivity|].
    destruct (debugIfEnabled_keeps sending ("ERROR: " ++ err)
                (Println ("Failed to get response from AI: " ++ err) (clearStatus s1)))
      as (Hm & Hl & _).
    rewrite Hm, Hl. destruct s1 as [m1 w1]. cbn in *. repeat split; assumption.
  - eexists. split; [reflexivity|].
    destruct s1 as [m1 w1]. cbn in *. repeat split; assumption.
Qed.

End Cancellation.

Lemma interrupted_chat_call_drops_reply_witness :
  exists s',
    ProcessUserMessage Sample.deps 1 "list the files"
      (Sample.manager, Sample2.interruptedWorld) = Some (false, s')
    /\ Status (fst s') = ""
    /\ Messages (fst s') = []
    /\ paneLog (snd s') = [].
Proof.
  destruct (interrupted_chat_call_drops_reply Sample.deps 0 "list the files"
              (Sample.manager, Sample2.interruptedWorld) eq_refl eq_refl)
    as (s' & Hrun & Hstatus & _ & Hmessages & Hlog & _).
  exists s'. repeat split; assumption.
Defined.

(** ** The actions of a reply *)

Section Actions.

Variable D : Deps.

(** X7: when every action kind asks for confirmation and the user declines,
    a reply that carries an action and is not busy ends the turn with
    [false] and the status cleared, without sending anything to the pane,
    without touching the exec history and without a nested turn. *)
Theorem declined_action_sends_nothing
  (self : string -> St -> Outcome) (r : AIResponse) (s : St) :
  alwaysConfirm D -> userDeclines (snd s) ->
  0 < actionKinds r -> ExecPaneSeemsBusy r = false ->
  exists s',
    actOn D self r s = Some (false, s')
    /\ Status (fst s') = ""
    /\ paneLog (snd s') = paneLog (snd s)
    /\ ExecHistory (fst s') = ExecHistory (fst s).
Proof.
  intros (Hexec & Hkeys & Hpaste) Hno Hsome Hbusy.
  destruct s as [m w]. cbn [snd] in Hno.
  destruct r as [msg keys cmds paste browser ra busy waiting nc].
  cbn [ExecPaneSeemsBusy] in Hbusy. subst busy.
  unfold actOn. cbn [ExecCommand SendKeys BrowserAction PasteMultilineContent
                     ExecPaneSeemsBusy].
  destruct cmds as [|c cmds].
  2:{ cbn [execCommands Println fst snd]. rewrite Hexec.
      unfold confirmedToExec. cbn [fst snd setConsole confirmAt clock].
      pose proof (Hno (clock w)) as Hd.
      destruct (confirmAt w (clock w)) as [ok edited]. cbn [fst] in Hd. subst ok.
      cbn [fst snd]. eexists. split; [reflexivity|].
      cbn. destruct (interruptAt w (clock w)); repeat split. }
  cbn [execCommands].
  destruct keys as [|k keys].
  2:{ unfold processSendKeys. cbn [SendKeys List.length Nat.ltb Nat.leb fst].
      destruct (idle m) eqn:Hidle.
      { eexists. split; [reflexivity|]. cbn [fst snd].
        apply String.eqb_eq in Hidle. repeat split; assumption. }
      cbn [Println fst snd]. rewrite Hkeys.
      unfold confirmedToExec. cbn [fst snd setConsole confirmAt clock].
      pose proof (Hno (clock w)) as Hd.
      destruct (confirmAt w (clock w)) as [ok edited]. cbn [fst] in Hd. subst ok.
      cbn [fst snd]. eexists. split; [reflexivity|].
      cbn. destruct (interruptAt w (clock w)); repeat split. }
  unfold processSendKeys. cbn [SendKeys List.length Nat.ltb Nat.leb].
  destruct browser as [|b browser].
  2:{ unfold processBrowserAction. cbn [BrowserAction String.eqb negb Println fst snd].
      rewrite Hexec.
      unfold confirmedToExec. cbn [fst snd setConsole confirmAt clock].
      pose proof (Hno (clock w)) as Hd.
      destruct (confirmAt w (clock w)) as [ok edited]. cbn [fst] in Hd. subst ok.
      cbn [fst snd]. eexists. split; [reflexivity|].
      cbn. destruct (interruptAt w (clock w)); repeat split. }
  unfold processBrowserAction. cbn [BrowserAction String.eqb negb].
  destruct paste as [|p paste].
  { exfalso. cbn in Hsome. lia. }
  unfold finishTurn, processPaste.
  cbn [PasteMultilineContent String.eqb negb Println fst snd].
  rewrite Hpaste.
  unfold confirmedToExec. cbn [fst snd setConsole confirmAt clock].
  pose proof (Hno (clock w)) as Hd.
  destruct (confirmAt w (clock w)) as [ok edited]. cbn [fst] in Hd. subst ok.
  cbn [fst snd]. eexists. split; [reflexivity|].
  cbn. destruct (interruptAt w (clock w)); repeat split.
Qed.

Lemma blocked_pane s :
  ExecPane (fst (blocked s)) = ExecPane (fst s)
  /\ paneLog (snd (blocked s)) = paneLog (snd s).
Proof.
  destruct s as [m w]. cbn. destruct (interruptAt w (clock w)); split; reflexivity.
Qed.

(** X8: on a pane that is not prepared and with confirmation off, the
    command loop sends every command of the reply once, with enter, in the
    order of the reply, sleeps once per command and goes on with the
    turn. *)
Theorem unprepared_commands_are_sent_in_order (commands : list string) (s : St) :
  (forall m, GetExecConfirm D m = false) ->
  IsPrepared (ExecPane (fst s)) = false ->
  fst (execCommands D commands s) = true
  /\ paneLog (snd (snd (execCommands D commands s)))
     = paneLog (snd s) ++ directivesOf (Id (ExecPane (fst s))) commands
  /\ ExecPane (fst (snd (execCommands D commands s))) = ExecPane (fst s)
  /\ clock (snd (snd (execCommands D commands s)))
     = clock (snd s) + List.length commands.
Proof.
  intros Hconfirm. revert s.
  induction commands as [|c commands IH]; intros s Hprep.
  - cbn. rewrite app_nil_r. repeat split. lia.
  - cbn [execCommands]. rewrite Hconfirm.
    destruct s as [m w]. cbn [Println fst snd] in *. rewrite Hprep.
    set (s1 := Sleep _).
    assert (Hpane : ExecPane (fst s1) = ExecPane m
                    /\ paneLog (snd s1)
                       = paneLog w ++ [mkPaneDirective (Id (ExecPane m)) c true]
                    /\ clock (snd s1) = S (clock w)).
    { subst s1. cbn. destruct (interruptAt w (clock w)); repeat split. }
    destruct Hpane as (Hp & Hl & Hc).
    destruct (IH s1) as (Hok & Hlog & Hsame & Hclock).
    { rewrite Hp. exact Hprep. }
    rewrite Hok, Hlog, Hsame, Hclock, Hp, Hl, Hc.
    cbn [directivesOf map List.length]. rewrite <- app_assoc.
    repeat split. lia.
Qed.

End Actions.

Lemma declined_action_sends_nothing_witness :
  exists s',
    actOn Sample2.confirming (fun _ _ => None) Sample2.oneCommand
      (Sample.manager, Sample2.decliningWorld) = Some (false, s')
    /\ Status (fst s') = ""
    /\ paneLog (snd s') = [].
Proof.
  destruct (declined_action_sends_nothing Sample2.confirming (fun _ _ => None)
              Sample2.oneCommand (Sample.manager, Sample2.decliningWorld))
    as (s' & Hrun & Hstatus & Hlog & _).
  - repeat split.
  - intros tick. reflexivity.
  - cbn. lia.
  - reflexivity.
  - exists s'. repeat split; assumption.
Defined.

Lemma unprepared_commands_are_sent_in_order_witness :
  map directive
    (paneLog (snd (snd (execCommands Sample.deps ["ls"; "pwd"]
                          (Sample.start Sample.chatDown)))))
  = ["ls"; "pwd"].
Proof.
  destruct (unprepared_commands_are_sent_in_order Sample.deps ["ls"; "pwd"]
              (Sample.start Sample.chatDown) (fun _ => eq_refl) eq_refl)
    as (_ & Hlog & _).
  rewrite Hlog. reflexivity.
Defined.

(** ** The browser client *)

Import Browser.

Lemma call_wellFormed c s : wellFormed (fst s) -> wellFormed (fst (call c s)).
Proof.
  destruct s as [b w]. intros Hwf. destruct c; cbn [call fst]; try exact Hwf.
  - unfold Connect. destruct (String.eqb _ _); [exact Hwf|].
    destruct (allocatorNil _ _); [exact Hwf|].
    cbn. intros _. split; discriminate.
  - unfold Close. destruct (cancel b); [|exact Hwf]. cbn. intros H; discriminate H.
Qed.

Lemma calls_wellFormed cs : forall s, wellFormed (fst s) -> wellFormed (fst (calls cs s)).
Proof.
  unfold calls. induction cs as [|c cs IH]; intros s Hwf; [exact Hwf|].
  cbn [fold_left]. apply IH, call_wellFormed, Hwf.
Qed.

(** X9: whatever calls were made on a client since [NewBrowserClient],
    [Close] returns nil and leaves the client not connected, so that a
    [Navigate] after it fails with "not connected". *)
Theorem close_always_disconnects (cfg : BrowserlessConfig) (w : Chrome) (cs : list Call) :
  let s := calls cs (NewBrowserClient cfg, w) in
  let closed := Close (fst s) (snd s) in
  fst (fst closed) = None
  /\ connected (snd (fst closed)) = false
  /\ fst (Navigate "about:blank" (snd (fst closed)) (snd closed))
     = (notConnected).
Proof.
  cbn zeta.
  pose proof (calls_wellFormed cs (NewBrowserClient cfg, w)) as Hwf.
  destruct (calls cs (NewBrowserClient cfg, w)) as [b w1]. cbn [fst snd] in *.
  assert (H : wellFormed b) by (apply Hwf; intros H; discriminate H).
  unfold Close. destruct (cancel b) eqn:Hc; cbn [fst snd connected].
  - repeat split.
  - destruct (connected b) eqn:Hb.
    + destruct (H Hb) as [Hcancel _]. contradiction.
    + unfold Navigate. rewrite Hb. repeat split.
Qed.


(** X11: [Connect] succeeds exactly when the token is not empty and the
    remote allocator is not nil; when it fails the client is unchanged and
    no action was run; when it succeeds the client is connected, its cancel
    function covers the CDP, browser and allocator contexts in this order,
    and the allocator was asked for the base URL followed by [?token=] and
    the token. *)
Theorem connect_outcome (b : BrowserClient) (w : Chrome) :
  let '(err, b', w') := Connect b w in
  (err = None <->
   Token (config b) <> "" /\ allocatorNil w (made w) = false)
  /\ (err <> None -> b' = b /\ actions w' = actions w)
  /\ (err = None ->
      connected b' = true
      /\ cancel b' = Some [S (S (made w)); S (made w); made w]
      /\ allocators w' = allocators w
           ++ [(made w, (BaseURL (config b) ++ "?token=" ++ Token (config b))%string)]
      /\ cancelled w' = cancelled w).
Proof.
  unfold Connect.
  destruct (String.eqb (Token (config b)) "") eqn:Htoken.
  - apply String.eqb_eq in Htoken. split; [split|split].
    + discriminate.
    + intros [Hne _]. contradiction.
    + intros _. split; reflexivity.
    + discriminate.
  - apply String.eqb_neq in Htoken.
    destruct (allocatorNil w (made w)) eqn:Hnil.
    + split; [split|split].
      * discriminate.
      * intros [_ Hne]. discriminate Hne.
      * intros _. split; reflexivity.
      * discriminate.
    + split; [split|split].
      * intros _. split; [exact Htoken|reflexivity].
      * reflexivity.
      * intros Hne. contradiction.
      * intros _. repeat split.
Qed.

(** X12: after a successful [Connect], [Close] cancels the three contexts
    that [Connect] made, the last made first, and nothing else. *)
Theorem connect_then_close_releases (b : BrowserClient) (w : Chrome)
  (b1 : BrowserClient) (w1 : Chrome) :
  Connect b w = (None, b1, w1) ->
  let '(err, b2, w2) := Close b1 w1 in
  err = None
  /\ connected b2 = false
  /\ cancelled w2 = cancelled w ++ [S (S (made w)); S (made w); made w]
  /\ made w2 = 3 + made w.
Proof.
  unfold Connect.
  destruct (String.eqb _ _); [discriminate|].
  destruct (allocatorNil _ _); [discriminate|].
  intros E. injection E as <- <-. cbn. repeat split.
Qed.

(** X19: a [Connect] on a client that is already connected replaces the
    stored cancel function, so that [Close] cancels the three contexts of
    the latest [Connect] and not those of the one before. *)
Theorem reconnect_closes_latest_contexts (b : BrowserClient) (w : Chrome)
  (b1 b2 : BrowserClient) (w1 w2 : Chrome) :
  Connect b w = (None, b1, w1) ->
  Connect b1 w1 = (None, b2, w2) ->
  cancelled (snd (Close b2 w2))
  = cancelled w ++ [5 + made w; 4 + made w; 3 + made w].
Proof.
  unfold Connect.
  destruct (String.eqb (Token (config b)) ""); [discriminate|].
  destruct (allocatorNil w (made w)); [discriminate|].
  intros E. injection E as <- <-. cbn [config made allocatorNil].
  destruct (String.eqb (Token (config b)) ""); [discriminate|].
  destruct (allocatorNil w _); [discriminate|].
  intros E. injection E as <- <-. reflexivity.
Qed.


Lemma connect_outcome_witness :
  connected (snd (fst (Connect (NewBrowserClient Sample2.browserless) Sample2.chrome)))
  = true.
Proof.
  pose proof (connect_outcome (NewBrowserClient Sample2.browserless) Sample2.chrome)
    as H.
  destruct (Connect (NewBrowserClient Sample2.browserless) Sample2.chrome)
    as [[err b'] w'] eqn:E.
  destruct H as (Hiff & _ & Hok). cbn [fst snd].
  apply Hok, Hiff. split; [discriminate|reflexivity].
Defined.

Lemma connect_then_close_releases_witness :
  cancelled
    (snd (Close (snd (fst (Connect (NewBrowserClient Sample2.browserless)
                             Sample2.chrome)))
                (snd (Connect (NewBrowserClient Sample2.browserless) Sample2.chrome))))
  = [2; 1; 0].
Proof.
  pose proof (connect_then_close_releases (NewBrowserClient Sample2.browserless)
                Sample2.chrome _ _ eq_refl) as H.
  cbn [fst snd] in *.
  destruct (Close _ _) as [[err b2] w2]. destruct H as (_ & _ & Hc & _).
  cbn [snd]. rewrite Hc. reflexivity.
Defined.

(** ** The command line *)

Import CLI.

(** X13: the completer always gives the same list for completion and for
    display. *)
Theorem completer_lists_agree (commands keys field : list string) :
  fst (Candidates commands keys field) = snd (Candidates commands keys field).
Proof.
  unfold Candidates.
  repeat match goal with
         | |- context [if ?c then _ else _] => destruct c
         end; reflexivity.
Qed.

Lemma typing_deep field n : S n < List.length field -> typing field n = false.
Proof.
  intros H. unfold typing.
  destruct (Nat.eqb_spec (List.length field) n); [lia|].
  destruct (Nat.eqb_spec (List.length field) (S n)); [lia|]. reflexivity.
Qed.

(** X14: the completer offers nothing for more than three fields, and
    nothing past the command itself when the command is none of
    [/config], [/prepare] and [/browser]. *)
Theorem completer_offers_nothing_beyond (commands keys field : list string) :
  3 < List.length field
  \/ (typing field 0 = false /\ knownCommand (fieldAt field 0) = false) ->
  Candidates commands keys field = (None, None).
Proof.
  intros [Hdeep|[Htop Hunknown]]; unfold Candidates.
  - rewrite !typing_deep by lia. rewrite !andb_false_r. reflexivity.
  - rewrite Htop. unfold knownCommand in Hunknown.
    apply orb_false_elim in Hunknown. destruct Hunknown as [Hunknown Hb].
    apply orb_false_elim in Hunknown. destruct Hunknown as [Hc Hp].
    unfold under. rewrite Hc, Hp, Hb, !andb_false_r. reflexivity.
Qed.

Lemma splitLines_plain s : freeOf LF s = true -> splitLines s = [s].
Proof.
  induction s as [|c s IH]; intros H; [reflexivity|].
  cbn [freeOf] in H. apply andb_prop in H. destruct H as [Hc Hs].
  cbn [splitLines]. apply negb_true_iff in Hc. rewrite Hc, (IH Hs). reflexivity.
Qed.

Lemma splitLines_line s rest :
  freeOf LF s = true ->
  splitLines (s ++ String LF rest)%string = s :: splitLines rest.
Proof.
  induction s as [|c s IH]; intros H.
  - cbn [append splitLines]. rewrite Ascii.eqb_refl. reflexivity.
  - cbn [freeOf] in H. apply andb_prop in H. destruct H as [Hc Hs].
    cbn [append splitLines]. apply negb_true_iff in Hc. rewrite Hc, (IH Hs).
    reflexivity.
Qed.

Lemma splitLines_joinLines (lines : list string) :
  lines <> [] -> forallb (freeOf LF) lines = true ->
  splitLines (joinLines lines) = lines.
Proof.
  induction lines as [|l lines IH]; intros Hne Hfree; [contradiction|].
  cbn [forallb] in Hfree. apply andb_prop in Hfree. destruct Hfree as [Hl Hrest].
  destruct lines as [|l' lines].
  - cbn. apply splitLines_plain, Hl.
  - change (joinLines (l :: l' :: lines))
      with (l ++ String LF (joinLines (l' :: lines)))%string.
    rewrite (splitLines_line _ _ Hl), IH; [reflexivity|discriminate|exact Hrest].
Qed.

(** X15: for entries without line ends, reading back the history file that
    [Start] wrote gives the entries trimmed, without the ones that are
    blank; entries that are trimmed and not empty come back as they
    were. *)
Theorem history_file_round_trip (history : list string) :
  forallb (freeOf LF) history = true ->
  loadHistory (saveHistory history) = filter nonEmptyString (map TrimSpace history)
  /\ ((forall entry, In entry history -> TrimSpace entry = entry /\ entry <> "") ->
      loadHistory (saveHistory history) = history).
Proof.
  intros Hfree.
  assert (E : loadHistory (saveHistory history)
              = filter nonEmptyString (map TrimSpace history)).
  { unfold loadHistory, saveHistory. destruct history as [|l history].
    - vm_compute. reflexivity.
    - rewrite splitLines_joinLines; [reflexivity|discriminate|exact Hfree]. }
  split; [exact E|]. intros Hclean. rewrite E. clear E Hfree.
  induction history as [|l history IH]; [reflexivity|].
  cbn [map filter]. destruct (Hclean l (or_introl eq_refl)) as [Htrim Hne].
  rewrite Htrim. unfold nonEmptyString at 1.
  destruct (String.eqb_spec l ""); [contradiction|]. cbn [negb].
  rewrite IH; [reflexivity|]. intros e He. apply Hclean. right. exact He.
Qed.

Lemma completer_offers_nothing_beyond_witness :
  Candidates ["/help"; "/config"] ["max_capture_lines"]
             ["/config"; "set"; "max_capture_lines"; "500"]
  = (None, None).
Proof.
  apply (completer_offers_nothing_beyond ["/help"; "/config"] ["max_capture_lines"]
           ["/config"; "set"; "max_capture_lines"; "500"]).
  left. cbn. lia.
Defined.

Lemma history_file_round_trip_witness :
  loadHistory (saveHistory ["ls -la"; "/prepare bash"]) = ["ls -la"; "/prepare bash"].
Proof.
  destruct (history_file_round_trip ["ls -la"; "/prepare bash"] eq_refl) as [_ Hback].
  apply Hback. intros entry [<-|[<-|[]]]; split; try reflexivity; discriminate.
Defined.

Lemma reconnect_closes_latest_contexts_witness :
  cancelled
    (snd (Close
            (snd (fst (Connect (snd (fst (Connect (NewBrowserClient Sample2.browserless)
                                            Sample2.chrome)))
                               (snd (Connect (NewBrowserClient Sample2.browserless)
                                       Sample2.chrome)))))
            (snd (Connect (snd (fst (Connect (NewBrowserClient Sample2.browserless)
                                       Sample2.chrome)))
                          (snd (Connect (NewBrowserClient Sample2.browserless)
                                  Sample2.chrome))))))
  = [5; 4; 3].
Proof.
  exact (reconnect_closes_latest_contexts (NewBrowserClient Sample2.browserless)
           Sample2.chrome _ _ _ _ eq_refl eq_refl).
Defined.
